(** * mobx-react [observer]: a shallow embedding of src/observer.js

    The development follows the source file top to bottom:

    - JavaScript values, truthiness, strict equality and the shallow
      comparison imported from [./utils/utils];
    - the per-instance run time: hidden properties, the render wrapper
      ([makeComponentReactive], [reactiveRender]), the Reaction callback,
      the [reactiveMixin] lifecycle methods and the observable [props] /
      [state] accessors ([makeObservableProp]);
    - the class-level transform [observer] with [mixinLifecycleEvents],
      over a store of component objects, so that in-place mutation and
      reference identity are visible.

    External collaborators (the MobX Reaction and Atom, the host
    framework's [forceUpdate], the user's own render and hooks) are
    modelled at their interface; every such definition says so. *)

From Stdlib Require Import ZArith List String Bool Lia.
From stdpp Require Import base gmap.
Import ListNotations.

(** ** JavaScript values *)

(** A top-level value as a shallow comparison sees it: a primitive or a
    reference.  Numbers are integers; NaN and signed zeros are not
    modelled. *)
Inductive scalar : Type :=
| SUndefined
| SNull
| SBool (b : bool)
| SNum (n : Z)
| SStr (s : string)
| SRef (r : nat).

(** A value handed to a component as [props] or [state], or thrown by a
    render: a scalar, or an object with its identity and a snapshot of its
    own enumerable keys (nested objects appear by reference only). *)
Inductive value : Type :=
| VScalar (s : scalar)
| VObject (r : nat) (fields : list (string * scalar)).

Definition undefined : value := VScalar SUndefined.

Definition scalar_eqb (a b : scalar) : bool :=
  match a, b with
  | SUndefined, SUndefined => true
  | SNull, SNull => true
  | SBool x, SBool y => Bool.eqb x y
  | SNum x, SNum y => Z.eqb x y
  | SStr x, SStr y => String.eqb x y
  | SRef x, SRef y => Nat.eqb x y
  | _, _ => false
  end.

(** [a === b]: primitives by value, objects by reference. *)
Definition strictEqual (a b : value) : bool :=
  match a, b with
  | VScalar x, VScalar y => scalar_eqb x y
  | VObject r _, VObject r' _ => Nat.eqb r r'
  | VObject r _, VScalar (SRef r') => Nat.eqb r r'
  | VScalar (SRef r), VObject r' _ => Nat.eqb r r'
  | _, _ => false
  end.

(** JavaScript truthiness, as used by [if (exception)] and
    [if (!componentClass)]. *)
Definition scalar_truthy (s : scalar) : bool :=
  match s with
  | SUndefined | SNull => false
  | SBool b => b
  | SNum n => negb (Z.eqb n 0)
  | SStr s => negb (String.eqb s EmptyString)
  | SRef _ => true
  end.

Definition truthy (v : value) : bool :=
  match v with
  | VScalar s => scalar_truthy s
  | VObject _ _ => true
  end.

Fixpoint lookup_key (k : string) (fs : list (string * scalar)) : option scalar :=
  match fs with
  | [] => None
  | (k', x) :: fs' => if String.eqb k k' then Some x else lookup_key k fs'
  end.

(** Every key of [fa] is an own key of [fb] with an identical value. *)
Fixpoint keys_agree (fa fb : list (string * scalar)) : bool :=
  match fa with
  | [] => true
  | (k, x) :: fa' =>
      match lookup_key k fb with
      | Some y => scalar_eqb x y && keys_agree fa' fb
      | None => false
      end
  end.

(** Modelled from the spec: [shallowEqual] of [./utils/utils], which is not
    among the sources.  Section 4.2 and the glossary: equality compared key
    by key at the top level only, scalar or reference equality per key; a
    new object with the same nested content but another reference is
    different. *)
Definition shallowEqual (a b : value) : bool :=
  if strictEqual a b then true
  else
    match a, b with
    | VObject _ fa, VObject _ fb =>
        Nat.eqb (length fa) (length fb) && keys_agree fa fb
    | _, _ => false
    end.

(** ** Observable events *)

(** The two accessor-backed fields of a component instance. *)
Inductive PropName : Type := Props | State.

(** An atom a render can read: the atom behind [this.props] or
    [this.state], or an observable of the application. *)
Inductive Atom : Type :=
| CellAtom (p : PropName)
| ExternalAtom (n : nat).

Definition PropName_eqb (p q : PropName) : bool :=
  match p, q with
  | Props, Props | State, State => true
  | _, _ => false
  end.

Definition Atom_eqb (a b : Atom) : bool :=
  match a, b with
  | CellAtom p, CellAtom q => PropName_eqb p q
  | ExternalAtom n, ExternalAtom m => Nat.eqb n m
  | _, _ => false
  end.

Inductive ReportKind : Type := RenderEvent | DestroyEvent.

(** What the code does to the outside, in program order. *)
Inductive Event : Type :=
| BaseRender                          (* the component's own render ran *)
| NewReaction                         (* new Reaction(...) *)
| ReportChanged (a : Atom)            (* atom.reportChanged() *)
| WillReact                           (* this.componentWillReact() *)
| ForceUpdate                         (* Component.prototype.forceUpdate.call(this) *)
| Dispose                             (* reaction.dispose() *)
| ErrorsReporterEmit (e : value)      (* errorsReporter.emit(exception) *)
| RenderReporterEmit (k : ReportKind) (* renderReporter.emit({event: ...}) *)
| ConsoleWarn (msg : string).         (* console.warn(...) *)

Definition is_ForceUpdate (e : Event) : bool :=
  match e with ForceUpdate => true | _ => false end.

Definition is_ReportChanged (e : Event) : bool :=
  match e with ReportChanged _ => true | _ => false end.

Definition is_BaseRender (e : Event) : bool :=
  match e with BaseRender => true | _ => false end.

Definition is_Destroy (e : Event) : bool :=
  match e with RenderReporterEmit DestroyEvent => true | _ => false end.

Definition is_Dispose (e : Event) : bool :=
  match e with Dispose => true | _ => false end.

Definition count (f : Event -> bool) (l : list Event) : nat :=
  length (List.filter f l).

(** ** Instance state *)

(** Interface model of a MobX [Reaction]: the disposed flag and the atoms
    recorded by the last tracked run. *)
Record Reaction : Type := mkReaction {
  isDisposed : bool;
  observing : list Atom
}.

(** What a user-supplied [componentWillReact] does to the instance: it
    returns, it makes the host unmount the component (the case the
    comment in the Reaction callback guards against), or it throws. *)
Inductive HookEffect : Type :=
| HookReturns
| HookUnmounts
| HookThrows (e : value).

(** The host framework's answer to [forceUpdate]: the update is enqueued,
    or the call throws. *)
Inductive HostReply : Type :=
| Enqueued
| HostThrows (e : value).

(** One component instance.  The hidden properties of the source keep
    their names; [reaction] is [this.render[$mobx]], present once
    [this.render = reactiveRender] has been installed on the instance;
    [isRenderingPending] is the closure variable of [makeComponentReactive].
    A hidden property that was never set reads [undefined], which every
    test in the source treats like [false]. *)
Record Component : Type := mkComponent {
  props_valueHolder : value;
  state_valueHolder : value;
  props_atomHolder : bool;
  state_atomHolder : bool;
  skipRender : bool;
  isForcingUpdate : bool;
  mobxIsUnmounted : bool;
  reaction : option Reaction;
  isRenderingPending : bool;
  componentWillReact : option HookEffect
}.

(** The module-level variables of observer.js, the instance under study,
    the environment (tracking derivation of MobX, reply of the host) and
    the events emitted so far, oldest first. *)
Record World : Type := mkWorld {
  isDevtoolsEnabled : bool;
  isUsingStaticRendering : bool;
  this : Component;
  tracking : option (list Atom);
  hostReply : HostReply;
  log : list Event
}.

Definition valueHolder (p : PropName) (c : Component) : value :=
  match p with
  | Props => props_valueHolder c
  | State => state_valueHolder c
  end.

Definition atomHolder (p : PropName) (c : Component) : bool :=
  match p with
  | Props => props_atomHolder c
  | State => state_atomHolder c
  end.

Definition with_valueHolder (p : PropName) (v : value) (c : Component) : Component :=
  match p with
  | Props => mkComponent v (state_valueHolder c) (props_atomHolder c)
               (state_atomHolder c) (skipRender c) (isForcingUpdate c)
               (mobxIsUnmounted c) (reaction c) (isRenderingPending c)
               (componentWillReact c)
  | State => mkComponent (props_valueHolder c) v (props_atomHolder c)
               (state_atomHolder c) (skipRender c) (isForcingUpdate c)
               (mobxIsUnmounted c) (reaction c) (isRenderingPending c)
               (componentWillReact c)
  end.

Definition with_atomHolder (p : PropName) (c : Component) : Component :=
  match p with
  | Props => mkComponent (props_valueHolder c) (state_valueHolder c) true
               (state_atomHolder c) (skipRender c) (isForcingUpdate c)
               (mobxIsUnmounted c) (reaction c) (isRenderingPending c)
               (componentWillReact c)
  | State => mkComponent (props_valueHolder c) (state_valueHolder c)
               (props_atomHolder c) true (skipRender c) (isForcingUpdate c)
               (mobxIsUnmounted c) (reaction c) (isRenderingPending c)
               (componentWillReact c)
  end.

Definition with_skipRender (b : bool) (c : Component) : Component :=
  mkComponent (props_valueHolder c) (state_valueHolder c) (props_atomHolder c)
    (state_atomHolder c) b (isForcingUpdate c) (mobxIsUnmounted c)
    (reaction c) (isRenderingPending c) (componentWillReact c).

Definition with_isForcingUpdate (b : bool) (c : Component) : Component :=
  mkComponent (props_valueHolder c) (state_valueHolder c) (props_atomHolder c)
    (state_atomHolder c) (skipRender c) b (mobxIsUnmounted c)
    (reaction c) (isRenderingPending c) (componentWillReact c).

Definition with_mobxIsUnmounted (b : bool) (c : Component) : Component :=
  mkComponent (props_valueHolder c) (state_valueHolder c) (props_atomHolder c)
    (state_atomHolder c) (skipRender c) (isForcingUpdate c) b
    (reaction c) (isRenderingPending c) (componentWillReact c).

Definition with_reaction (r : option Reaction) (c : Component) : Component :=
  mkComponent (props_valueHolder c) (state_valueHolder c) (props_atomHolder c)
    (state_atomHolder c) (skipRender c) (isForcingUpdate c) (mobxIsUnmounted c)
    r (isRenderingPending c) (componentWillReact c).

Definition with_isRenderingPending (b : bool) (c : Component) : Component :=
  mkComponent (props_valueHolder c) (state_valueHolder c) (props_atomHolder c)
    (state_atomHolder c) (skipRender c) (isForcingUpdate c) (mobxIsUnmounted c)
    (reaction c) b (componentWillReact c).

Definition with_this (f : Component -> Component) (w : World) : World :=
  mkWorld (isDevtoolsEnabled w) (isUsingStaticRendering w) (f (this w))
    (tracking w) (hostReply w) (log w).

Definition with_tracking (t : option (list Atom)) (w : World) : World :=
  mkWorld (isDevtoolsEnabled w) (isUsingStaticRendering w) (this w)
    t (hostReply w) (log w).

Definition with_log (l : list Event) (w : World) : World :=
  mkWorld (isDevtoolsEnabled w) (isUsingStaticRendering w) (this w)
    (tracking w) (hostReply w) l.

Definition with_static (b : bool) (w : World) : World :=
  mkWorld (isDevtoolsEnabled w) b (this w) (tracking w) (hostReply w) (log w).

Definition with_devtools (b : bool) (w : World) : World :=
  mkWorld b (isUsingStaticRendering w) (this w) (tracking w) (hostReply w) (log w).

(** ** A state and exception monad for the run time *)

Inductive Completion (A : Type) : Type :=
| Returned (a : A)
| Thrown (e : value).
Arguments Returned {A} a.
Arguments Thrown {A} e.

Definition M (A : Type) : Type := World -> Completion A * World.

Definition ret {A} (a : A) : M A := fun w => (Returned a, w).

Definition throw {A} (e : value) : M A := fun w => (Thrown e, w).

Definition bind {A B} (m : M A) (k : A -> M B) : M B :=
  fun w =>
    match m w with
    | (Returned a, w') => k a w'
    | (Thrown e, w') => (Thrown e, w')
    end.

Notation "x <- m ;; k" := (bind m (fun x => k))
  (at level 100, m at next level, right associativity).
Notation "m ;;; k" := (bind m (fun _ => k))
  (at level 100, k at level 200, right associativity).

Definition get : M World := fun w => (Returned w, w).

Definition modify (f : World -> World) : M unit := fun w => (Returned tt, f w).

Definition emit (e : Event) : M unit :=
  modify (fun w => with_log (log w ++ [e]) w).

(** [try { body } catch (e) { ... }]: the completion of [body] as a value. *)
Definition try_catch {A} (body : M A) : M (Completion A) :=
  fun w => let '(c, w') := body w in (Returned c, w').

(** [let hasError = true; try { body; hasError = false } finally { fin }]:
    [fin] learns whether [body] threw, and the exception goes on after it. *)
Definition try_finally (body : M unit) (fin : bool -> M unit) : M unit :=
  c <- try_catch body ;;
  match c with
  | Returned _ => fin false
  | Thrown e => fin true ;;; throw e
  end.

Definition exec {A} (m : M A) (w : World) : World := snd (m w).
Definition result {A} (m : M A) (w : World) : Completion A := fst (m w).

(** [setHiddenProp(this, key, value)] on each hidden key of the source. *)
Definition setHiddenProp (f : Component -> Component) : M unit :=
  modify (with_this f).

(** ** External collaborators at their interface *)

(** One execution of the user's render: the atoms it reads, in order, and
    how it completes. *)
Record RenderRun : Type := mkRun {
  reads : list Atom;
  outcome : Completion value
}.

(** [atom.reportObserved()]: recorded by the derivation being tracked, if
    there is one. *)
Definition reportObserved (a : Atom) : M unit :=
  modify (fun w =>
    match tracking w with
    | Some l => with_tracking (Some (l ++ [a])) w
    | None => w
    end).

(** [getAtom.call(this)] of [makeObservableProp]: the atom is created on
    first use. *)
Definition getAtom (p : PropName) : M unit :=
  setHiddenProp (with_atomHolder p).

(** The getter installed by [makeObservableProp]. *)
Definition getter (p : PropName) : M value :=
  getAtom p ;;;
  reportObserved (CellAtom p) ;;;
  w <- get ;;
  ret (valueHolder p (this w)).

(** A read performed by the user's render: [this.props] and [this.state]
    go through the getter, an application observable reports itself. *)
Definition read (a : Atom) : M unit :=
  match a with
  | CellAtom p => _ <- getter p ;; ret tt
  | ExternalAtom _ => reportObserved a
  end.

Fixpoint read_all (l : list Atom) : M unit :=
  match l with
  | [] => ret tt
  | a :: l' => read a ;;; read_all l'
  end.

(** [render.call(this)] for the component's original render. *)
Definition baseRender (run : RenderRun) : M value :=
  emit BaseRender ;;;
  read_all (reads run) ;;;
  match outcome run with
  | Returned v => ret v
  | Thrown e => throw e
  end.

(** [reaction.dispose()]: idempotent, and final. *)
Definition dispose : M unit :=
  emit Dispose ;;;
  setHiddenProp (fun c =>
    match reaction c with
    | Some r => with_reaction (Some (mkReaction true [])) c
    | None => c
    end).

(** [reaction.track(fn)]: on a live Reaction [fn] runs synchronously and
    the atoms it reports become the dependency set of the session
    (section 6 of the specification); a Reaction that is already disposed
    returns at once and does not call [fn].  The result is what [fn]
    returned, when it ran. *)
Definition track {A} (fn : M A) : M (option A) :=
  w0 <- get ;;
  if match reaction (this w0) with
     | Some r => isDisposed r
     | None => false
     end
  then ret None
  else
    modify (with_tracking (Some [])) ;;;
    c <- try_catch fn ;;
    w <- get ;;
    setHiddenProp (fun c =>
      match reaction c, tracking w with
      | Some r, Some l =>
          if isDisposed r then c else with_reaction (Some (mkReaction false l)) c
      | _, _ => c
      end) ;;;
    modify (with_tracking (tracking w0)) ;;;
    match c with
    | Returned a => ret (Some a)
    | Thrown e => throw e
    end.

(** [Component.prototype.forceUpdate.call(this)]: the request is handed to
    the host framework. *)
Definition forceUpdate : M unit :=
  emit ForceUpdate ;;;
  w <- get ;;
  match hostReply w with
  | Enqueued => ret tt
  | HostThrows e => throw e
  end.

(** ** The render wrapper *)

(** [reactiveRender], lines 109-132.  The two locals [rendering] and
    [exception] start as [undefined] and are assigned by the function
    given to [track], if it runs.  The two timestamps taken when the
    devtools are enabled are not modelled. *)
Definition reactiveRender (run : RenderRun) : M value :=
  setHiddenProp (with_isRenderingPending false) ;;;
  cell <- track (
    c <- try_catch (baseRender run) ;;
    ret (match c with
         | Returned rendering => (rendering, undefined)
         | Thrown e => (undefined, e)
         end)) ;;
  let '(rendering, exception) :=
    match cell with
    | Some locals => locals
    | None => (undefined, undefined)
    end in
  if truthy exception then
    dispose ;;;
    emit (ErrorsReporterEmit exception) ;;;
    throw exception
  else ret rendering.

(** [makeComponentReactive], lines 106-186, up to the creation of the
    Reaction; the callback handed to the Reaction is [onInvalidate] below. *)
Definition makeComponentReactive (run : RenderRun) : M value :=
  w <- get ;;
  if isUsingStaticRendering w then baseRender run
  else
    setHiddenProp (with_skipRender false) ;;;
    setHiddenProp (with_isForcingUpdate false) ;;;
    setHiddenProp (with_isRenderingPending false) ;;;
    emit NewReaction ;;;
    setHiddenProp (with_reaction (Some (mkReaction false []))) ;;;
    reactiveRender run.

(** [this.render()] as the host calls it, for an instance of a class that
    [observer] upgraded once, so that the render wrapped at line 325 is
    the component's own: the instance's own [reactiveRender] once
    installed, the wrapper put on the prototype by [observer] before
    that. *)
Definition render (run : RenderRun) : M value :=
  w <- get ;;
  match reaction (this w) with
  | Some _ => reactiveRender run
  | None => makeComponentReactive run
  end.

(** ** reactiveMixin *)

(** [reactiveMixin.componentWillUnmount], lines 192-207. *)
Definition componentWillUnmount : M unit :=
  w <- get ;;
  if isUsingStaticRendering w then ret tt
  else
    match reaction (this w) with
    | Some _ => dispose
    | None => ret tt
    end ;;;
    setHiddenProp (with_mobxIsUnmounted true) ;;;
    if isDevtoolsEnabled w then emit (RenderReporterEmit DestroyEvent)
    else ret tt.

(** [reportRendering], reached from [componentDidMount] and
    [componentDidUpdate]. *)
Definition reportRendering : M unit :=
  emit (RenderReporterEmit RenderEvent).

Definition componentDidMount : M unit :=
  w <- get ;;
  if isDevtoolsEnabled w then reportRendering else ret tt.

Definition componentDidUpdate : M unit :=
  w <- get ;;
  if isDevtoolsEnabled w then reportRendering else ret tt.

Definition static_warning : string :=
  "[mobx-react] It seems that a re-rendering of a React component is triggered while in static (server-side) mode. Please make sure components are rendered only once server-side."%string.

(** [reactiveMixin.shouldComponentUpdate], lines 221-236. *)
Definition shouldComponentUpdate (nextProps nextState : value) : M bool :=
  w <- get ;;
  (if isUsingStaticRendering w then emit (ConsoleWarn static_warning)
   else ret tt) ;;;
  state <- getter State ;;
  if negb (strictEqual state nextState) then ret true
  else
    props <- getter Props ;;
    ret (negb (shallowEqual props nextProps)).

(** ** The Reaction callback *)

Definition run_hook (h : HookEffect) : M unit :=
  match h with
  | HookReturns => ret tt
  | HookUnmounts => componentWillUnmount
  | HookThrows e => throw e
  end.

(** The function given to [new Reaction], lines 159-181. *)
Definition onInvalidate : M unit :=
  w <- get ;;
  if negb (isRenderingPending (this w)) then
    setHiddenProp (with_isRenderingPending true) ;;;
    match componentWillReact (this w) with
    | Some h => emit WillReact ;;; run_hook h
    | None => ret tt
    end ;;;
    w1 <- get ;;
    if negb (mobxIsUnmounted (this w1)) then
      try_finally
        (setHiddenProp (with_isForcingUpdate true) ;;;
         w2 <- get ;;
         if negb (skipRender (this w2)) then forceUpdate else ret tt)
        (fun hasError =>
           setHiddenProp (with_isForcingUpdate false) ;;;
           if hasError then dispose else ret tt)
    else ret tt
  else ret tt.

Definition observes (a : Atom) (r : Reaction) : bool :=
  existsb (Atom_eqb a) (observing r).

(** MobX running a reaction: a disposed one is skipped, and an exception
    leaving the callback is kept by the reaction and does not reach the
    writer. *)
Definition runReaction : M unit :=
  w <- get ;;
  match reaction (this w) with
  | Some r =>
      if isDisposed r then ret tt
      else _ <- try_catch onInvalidate ;; ret tt
  | None => ret tt
  end.

(** [atom.reportChanged()] as section 2 of the specification gives it: the
    callback of a live session runs when one of its recorded dependencies
    changes. *)
Definition reportChanged (a : Atom) : M unit :=
  emit (ReportChanged a) ;;;
  w <- get ;;
  match reaction (this w) with
  | Some r => if observes a r then runReaction else ret tt
  | None => ret tt
  end.

(** ** makeObservableProp *)

(** The setter installed by [makeObservableProp], lines 255-264. *)
Definition setter (p : PropName) (v : value) : M unit :=
  w <- get ;;
  if negb (isForcingUpdate (this w))
     && negb (shallowEqual (valueHolder p (this w)) v) then
    setHiddenProp (with_valueHolder p v) ;;;
    setHiddenProp (with_skipRender true) ;;;
    getAtom p ;;;
    reportChanged (CellAtom p) ;;;
    setHiddenProp (with_skipRender false)
  else
    setHiddenProp (with_valueHolder p v).

(** ** Module-level switches *)

(** [useStaticRendering], lines 87-90. *)
Definition useStaticRendering (b : bool) : M unit :=
  modify (with_static b).

(** [trackComponents], lines 81-85, where [WeakMap] exists. *)
Definition trackComponents : M unit :=
  w <- get ;;
  if negb (isDevtoolsEnabled w) then modify (with_devtools true) else ret tt.

(** ** Runs *)

(** What can happen to an instance from outside. *)
Inductive Action : Type :=
| ARender (run : RenderRun)        (* the host calls this.render() *)
| ASet (p : PropName) (v : value)  (* the host assigns this.props / this.state *)
| AChange (a : Atom)               (* an observable changes *)
| AUnmount                         (* the host calls componentWillUnmount *)
| ADidMount
| ADidUpdate
| AUseStaticRendering (b : bool)
| ATrackComponents.

Definition step (a : Action) (w : World) : World :=
  match a with
  | ARender run => exec (render run) w
  | ASet p v => exec (setter p v) w
  | AChange x => exec (reportChanged x) w
  | AUnmount => exec componentWillUnmount w
  | ADidMount => exec componentDidMount w
  | ADidUpdate => exec componentDidUpdate w
  | AUseStaticRendering b => exec (useStaticRendering b) w
  | ATrackComponents => exec trackComponents w
  end.

Definition run_actions (l : list Action) (w : World) : World :=
  fold_left (fun w a => step a w) l w.

(** A freshly constructed instance in a fresh module. *)
Definition new_component (hook : option HookEffect) : Component :=
  mkComponent undefined undefined false false false false false None false hook.

Definition new_world (static devtools : bool) (hook : option HookEffect)
    (h : HostReply) : World :=
  mkWorld devtools static (new_component hook) None h [].

(** ** Component objects and the store *)

(** The lifecycle methods [mixinLifecycleEvents] patches. *)
Inductive Lifecycle : Type :=
| ComponentDidMount
| ComponentWillUnmount
| ComponentDidUpdate.

(** The value of a property of a component object or of its prototype. *)
Inductive jsprop : Type :=
| PAbsent                                   (* undefined *)
| PValue (s : scalar)                       (* a value that is not a function *)
| PUserFn (id : nat)                        (* a function written by the user *)
| PMixinShouldComponentUpdate               (* reactiveMixin.shouldComponentUpdate *)
| PObserverRender (baseRender : jsprop)     (* function() { return makeComponentReactive.call(this, baseRender) } *)
| PPatched (name : Lifecycle) (original : jsprop)
| PObserverForwardRef (baseRender : jsprop) (* function ObserverForwardRef() {...} *)
| PLiteObserver (base : nat).               (* observerLite(componentClass) *)

Definition prop_truthy (p : jsprop) : bool :=
  match p with
  | PAbsent => false
  | PValue s => scalar_truthy s
  | _ => true
  end.

(** [typeof p === "function"]. *)
Definition prop_isFunction (p : jsprop) : bool :=
  match p with
  | PAbsent | PValue _ => false
  | _ => true
  end.

(** [p !== reactiveMixin.shouldComponentUpdate]. *)
Definition is_mixin_sCU (p : jsprop) : bool :=
  match p with
  | PMixinShouldComponentUpdate => true
  | _ => false
  end.

(** The object that receives the mixin: [componentClass.prototype], or the
    component object itself.  Only the properties observer.js touches. *)
Record Target : Type := mkTarget {
  t_render : jsprop;
  t_componentDidMount : jsprop;
  t_componentWillUnmount : jsprop;
  t_componentDidUpdate : jsprop;
  t_shouldComponentUpdate : jsprop;
  t_props_observable : bool;   (* accessor pair of makeObservableProp on "props" *)
  t_state_observable : bool    (* accessor pair of makeObservableProp on "state" *)
}.

(** A component as [observer] sees it.  The object and its prototype are
    taken to be extensible, with writable properties, as classes and plain
    objects are unless frozen. *)
Record ComponentObject : Type := mkObject {
  isFunction : bool;            (* typeof componentClass === "function" *)
  isMobxInjector : bool;        (* componentClass.isMobxInjector === true *)
  superIsPureComponent : bool;  (* componentClass.__proto__ === PureComponent *)
  typeofTag : option nat;       (* componentClass["$$typeof"], a symbol *)
  own : Target;                 (* own properties of the object *)
  prototype : option Target;    (* componentClass.prototype, when truthy *)
  isReactClass : bool;          (* componentClass.isReactClass, truthy *)
  extendsComponent : bool;      (* Component.isPrototypeOf(componentClass) *)
  propTypes : scalar;
  defaultProps : scalar;
  isMobXReactObserver : bool
}.

Definition empty_target : Target :=
  mkTarget PAbsent PAbsent PAbsent PAbsent PAbsent false false.

(** A plain object without any of the properties above, [{}]. *)
Definition empty_object : ComponentObject :=
  mkObject false false false None empty_target None false false
    SUndefined SUndefined false.

Inductive JsError : Type :=
| TypeError
| Error (msg : string).

Inductive Outcome : Type :=
| Ok (v : value)
| Raise (e : JsError).

(** The objects reachable by reference, the next unused reference, the
    symbol [ReactForwardRefSymbol] of the host framework ([None] where
    [forwardRef] does not exist), the [observer] of mobx-react-lite and
    the console.  [observerLite r] is what [observerLite(componentClass)]
    has become after [hoistStatics] (lines 305-308) for the function at
    reference [r]: [None] when the function itself is handed back (as
    mobx-react-lite does while static rendering is on, a flag that line 89
    forwards to it), the new component otherwise. *)
Record Store : Type := mkStore {
  objects : gmap nat ComponentObject;
  next : nat;
  ReactForwardRefSymbol : option nat;
  observerLite : nat -> option ComponentObject;
  console : list Event
}.

Definition with_objects (m : gmap nat ComponentObject) (s : Store) : Store :=
  mkStore m (next s) (ReactForwardRefSymbol s) (observerLite s) (console s).

Definition warn (msg : string) (s : Store) : Store :=
  mkStore (objects s) (next s) (ReactForwardRefSymbol s) (observerLite s)
    (console s ++ [ConsoleWarn msg]).

(** A new object gets the next unused reference. *)
Definition alloc (o : ComponentObject) (s : Store) : nat * Store :=
  let r := next s in
  (r, mkStore (<[r := o]> (objects s)) (S r) (ReactForwardRefSymbol s)
        (observerLite s) (console s)).

Definition with_render (p : jsprop) (t : Target) : Target :=
  mkTarget p (t_componentDidMount t) (t_componentWillUnmount t)
    (t_componentDidUpdate t) (t_shouldComponentUpdate t)
    (t_props_observable t) (t_state_observable t).

Definition with_shouldComponentUpdate (p : jsprop) (t : Target) : Target :=
  mkTarget (t_render t) (t_componentDidMount t) (t_componentWillUnmount t)
    (t_componentDidUpdate t) p (t_props_observable t) (t_state_observable t).

(** Modelled from the spec: [patch] of [./utils/utils], which is not among
    the sources.  Section 4.3: the lifecycle method is wrapped so that the
    mixin's method runs in addition to the original one. *)
Definition patch (name : Lifecycle) (t : Target) : Target :=
  match name with
  | ComponentDidMount =>
      mkTarget (t_render t) (PPatched name (t_componentDidMount t))
        (t_componentWillUnmount t) (t_componentDidUpdate t)
        (t_shouldComponentUpdate t) (t_props_observable t) (t_state_observable t)
  | ComponentWillUnmount =>
      mkTarget (t_render t) (t_componentDidMount t)
        (PPatched name (t_componentWillUnmount t)) (t_componentDidUpdate t)
        (t_shouldComponentUpdate t) (t_props_observable t) (t_state_observable t)
  | ComponentDidUpdate =>
      mkTarget (t_render t) (t_componentDidMount t) (t_componentWillUnmount t)
        (PPatched name (t_componentDidUpdate t))
        (t_shouldComponentUpdate t) (t_props_observable t) (t_state_observable t)
  end.

(** [makeObservableProp(target, propName)], lines 239-266: the accessor
    pair whose getter and setter are [getter] and [setter] above. *)
Definition makeObservableProp (p : PropName) (t : Target) : Target :=
  match p with
  | Props =>
      mkTarget (t_render t) (t_componentDidMount t) (t_componentWillUnmount t)
        (t_componentDidUpdate t) (t_shouldComponentUpdate t) true
        (t_state_observable t)
  | State =>
      mkTarget (t_render t) (t_componentDidMount t) (t_componentWillUnmount t)
        (t_componentDidUpdate t) (t_shouldComponentUpdate t)
        (t_props_observable t) true
  end.

Definition injector_warning : string :=
  "Mobx observer: You are trying to use 'observer' on a component that already has 'inject'. Please apply 'observer' before applying 'inject'"%string.

Definition pure_warning : string :=
  "Mobx observer: You are using 'observer' on React.PureComponent. These two achieve two opposite goals and should not be used together"%string.

Definition sCU_warning : string :=
  "Use `shouldComponentUpdate` in an `observer` based component breaks the behavior of `observer` and might lead to unexpected results. Manually implementing `sCU` should not be needed when using mobx-react."%string.

Definition forwardRef_error : string :=
  "render property of ForwardRef was not a function"%string.

Definition invalid_error : string :=
  "Please pass a valid component to 'observer'"%string.

(** [mixinLifecycleEvents], lines 332-348; the second component says
    whether the warning is printed. *)
Definition mixinLifecycleEvents (t : Target) : Target * bool :=
  let t1 := patch ComponentDidMount t in
  let t2 := patch ComponentWillUnmount t1 in
  let t3 := patch ComponentDidUpdate t2 in
  if negb (prop_truthy (t_shouldComponentUpdate t3)) then
    (with_shouldComponentUpdate PMixinShouldComponentUpdate t3, false)
  else if negb (is_mixin_sCU (t_shouldComponentUpdate t3)) then (t3, true)
  else (t3, false).

Definition with_own (t : Target) (o : ComponentObject) : ComponentObject :=
  mkObject (isFunction o) (isMobxInjector o) (superIsPureComponent o)
    (typeofTag o) t (prototype o) (isReactClass o) (extendsComponent o)
    (propTypes o) (defaultProps o) (isMobXReactObserver o).

Definition with_prototype (t : Target) (o : ComponentObject) : ComponentObject :=
  mkObject (isFunction o) (isMobxInjector o) (superIsPureComponent o)
    (typeofTag o) (own o) (Some t) (isReactClass o) (extendsComponent o)
    (propTypes o) (defaultProps o) (isMobXReactObserver o).

Definition with_isMobXReactObserver (o : ComponentObject) : ComponentObject :=
  mkObject (isFunction o) (isMobxInjector o) (superIsPureComponent o)
    (typeofTag o) (own o) (prototype o) (isReactClass o) (extendsComponent o)
    (propTypes o) (defaultProps o) true.

(** [componentClass.prototype || componentClass]. *)
Definition target_of (o : ComponentObject) : Target :=
  match prototype o with
  | Some t => t
  | None => own o
  end.

Definition with_target (t : Target) (o : ComponentObject) : ComponentObject :=
  match prototype o with
  | Some _ => with_prototype t o
  | None => with_own t o
  end.

(** [ReactForwardRefSymbol && componentClass["$$typeof"] === ReactForwardRefSymbol]. *)
Definition is_forwardRef (s : Store) (o : ComponentObject) : bool :=
  match ReactForwardRefSymbol s, typeofTag o with
  | Some f, Some t => Nat.eqb t f
  | _, _ => false
  end.

(** The test of lines 299-304 for a stateless function component. *)
Definition is_function_component (o : ComponentObject) : bool :=
  isFunction o
  && match prototype o with
     | Some t => negb (prop_truthy (t_render t))
     | None => true
     end
  && negb (isReactClass o)
  && negb (extendsComponent o).

(** The object [forwardRef(function ObserverForwardRef() {...})] returns. *)
Definition forwardRef_object (s : Store) (baseRender : jsprop) : ComponentObject :=
  mkObject false false false (ReactForwardRefSymbol s)
    (with_render (PObserverForwardRef baseRender) empty_target)
    None false false SUndefined SUndefined false.

(** Lines 309-312 on [observerComponent]: [propTypes] and [defaultProps]
    are taken from [componentClass] when truthy there, and the component
    is marked. *)
Definition finish_lite (componentClass observerComponent : ComponentObject)
    : ComponentObject :=
  mkObject (isFunction observerComponent) (isMobxInjector observerComponent)
    (superIsPureComponent observerComponent) (typeofTag observerComponent)
    (own observerComponent) (prototype observerComponent)
    (isReactClass observerComponent) (extendsComponent observerComponent)
    (if scalar_truthy (propTypes componentClass) then propTypes componentClass
     else propTypes observerComponent)
    (if scalar_truthy (defaultProps componentClass) then defaultProps componentClass
     else defaultProps observerComponent)
    true.

(** [observer] applied to an object of the store, lines 272-330. *)
Definition observer_object (r : nat) (o : ComponentObject) (s : Store)
    : Outcome * Store :=
  let s1 := if isMobxInjector o then warn injector_warning s else s in
  let s2 := if superIsPureComponent o then warn pure_warning s1 else s1 in
  if is_forwardRef s2 o then
    let baseRender := t_render (own o) in
    if negb (prop_isFunction baseRender) then (Raise (Error forwardRef_error), s2)
    else
      let '(r', s3) := alloc (forwardRef_object s2 baseRender) s2 in
      (Ok (VScalar (SRef r')), s3)
  else if is_function_component o then
    match observerLite s2 r with
    | Some observerComponent =>
        let '(r', s3) := alloc (finish_lite o observerComponent) s2 in
        (Ok (VScalar (SRef r')), s3)
    | None =>
        (Ok (VScalar (SRef r)),
         with_objects (<[r := finish_lite o o]> (objects s2)) s2)
    end
  else
    let '(target, warned) := mixinLifecycleEvents (target_of o) in
    let s3 := if warned then warn sCU_warning s2 else s2 in
    let target := makeObservableProp Props target in
    let target := makeObservableProp State target in
    let baseRender := t_render target in
    let target := with_render (PObserverRender baseRender) target in
    let o' := with_target target (with_isMobXReactObserver o) in
    (Ok (VScalar (SRef r)), with_objects (<[r := o']> (objects s3)) s3).

Definition object_at (r : nat) (s : Store) : ComponentObject :=
  match objects s !! r with
  | Some o => o
  | None => empty_object
  end.

(** [observer(componentClass)].  Reading a property of [undefined] or
    [null] raises a TypeError at line 272; any other primitive reaches line
    316 and is refused there when falsy, and cannot take the mixin (a
    property write on a primitive raises in strict mode) when truthy. *)
Definition observer (componentClass : value) (s : Store) : Outcome * Store :=
  match componentClass with
  | VScalar SUndefined | VScalar SNull => (Raise TypeError, s)
  | VScalar (SRef r) | VObject r _ => observer_object r (object_at r s) s
  | VScalar p =>
      if negb (scalar_truthy p) then (Raise (Error invalid_error), s)
      else (Raise TypeError, s)
  end.

(** ** Vocabulary of the statements *)

(** The atoms a render creates by reading [this.props] / [this.state]. *)
Definition touch (l : list Atom) (c : Component) : Component :=
  fold_left (fun c a =>
    match a with
    | CellAtom p => with_atomHolder p c
    | ExternalAtom _ => c
    end) l c.

(** The cell [p] is among the atoms read. *)
Definition touched (p : PropName) (l : list Atom) : bool :=
  existsb (Atom_eqb (CellAtom p)) l.

(** What a run of the Reaction callback leaves alone, and what it
    appends to the log. *)
Definition callback_event (e : Event) : bool :=
  match e with
  | WillReact | ForceUpdate | Dispose | RenderReporterEmit DestroyEvent => true
  | _ => false
  end.

(** The render has a Reaction attached and it is disposed. *)
Definition session_disposed (w : World) : bool :=
  match reaction (this w) with
  | Some r => isDisposed r
  | None => false
  end.

(** The action is a call of [this.render()]. *)
Definition is_render (a : Action) : bool :=
  match a with ARender _ => true | _ => false end.

(** Any action but [useStaticRendering(false)]. *)
Definition keeps_static (a : Action) : bool :=
  match a with AUseStaticRendering false => false | _ => true end.

(** The instance is unmounted once [componentWillReact], if any, has run:
    it was already, or the hook unmounts it (which the mixin records only
    outside static rendering). *)
Definition unmounted_after_hook (w : World) : bool :=
  mobxIsUnmounted (this w)
  || match componentWillReact (this w) with
     | Some HookUnmounts => negb (isUsingStaticRendering w)
     | _ => false
     end.

(** The instance's [componentWillReact] throws. *)
Definition hook_throws (w : World) : bool :=
  match componentWillReact (this w) with
  | Some (HookThrows _) => true
  | _ => false
  end.

(** [this.render[$mobx]] is there: the instance owns a Reaction. *)
Definition has_session (w : World) : bool :=
  match reaction (this w) with Some _ => true | None => false end.

(** The props object [{ pizza: n }] at reference [r]. *)
Definition pizza (r : nat) (n : Z) : value :=
  VObject r [("pizza"%string, SNum n)].

(** A render that reads [this.props] and an application observable. *)
Definition reading_run : RenderRun :=
  mkRun [CellAtom Props; ExternalAtom 0] (Returned (VScalar (SNum 7))).

(** A mounted instance after its first render. *)
Definition mounted_world : World :=
  run_actions [ASet Props (pizza 1 1); ARender reading_run; ADidMount]
    (new_world false false None Enqueued).

(** The next [this.render()] runs inside a Reaction: one is attached
    already, or static rendering is off and one will be created. *)
Definition tracked_render (w : World) : bool :=
  has_session w || negb (isUsingStaticRendering w).

(** An Error object, and a render that throws it. *)
Definition boom : value := VObject 9 [("message"%string, SStr "boom")].

Definition throwing_run : RenderRun :=
  mkRun [ExternalAtom 0] (Thrown boom).

(** A fresh instance in a module where static rendering and the devtools
    are switched on. *)
Definition static_world : World := new_world true true None Enqueued.

(** A class-based component: a constructor whose prototype has a render
    method, or an object with a render method, that is not a ref-forwarding
    wrapper of the host framework. *)
Definition class_based (s : Store) (o : ComponentObject) : bool :=
  negb (is_forwardRef s o)
  && (if isFunction o then
        match prototype o with
        | Some t => prop_isFunction (t_render t)
        | None => false
        end
      else prop_isFunction (t_render (own o))).

(** The warnings of lines 272-281. *)
Definition entry_warnings (o : ComponentObject) : list Event :=
  (if isMobxInjector o then [ConsoleWarn injector_warning] else [])
  ++ (if superIsPureComponent o then [ConsoleWarn pure_warning] else []).

(** The upgraded component: what lines 320-329 leave at the reference. *)
Definition upgraded (o : ComponentObject) : ComponentObject :=
  let t := fst (mixinLifecycleEvents (target_of o)) in
  let t := makeObservableProp State (makeObservableProp Props t) in
  with_target (with_render (PObserverRender (t_render t)) t)
    (with_isMobXReactObserver o).

(** A class component [class T extends Component { render() {...} }]. *)
Definition class_object (pure : bool) (sCU : jsprop) : ComponentObject :=
  mkObject true false pure None empty_target
    (Some (mkTarget (PUserFn 0) PAbsent PAbsent PAbsent sCU false false))
    false true SUndefined SUndefined false.

Definition class_store (pure : bool) (sCU : jsprop) : Store :=
  mkStore {[ 1 := class_object pure sCU ]} 2 (Some 0) (fun _ => None) [].

(** The object [forwardRef] would return, with a [render] that is not a
    function. *)
Definition broken_forwardRef : ComponentObject :=
  mkObject false false false (Some 0)
    (with_render (PValue (SNum 3)) empty_target)
    None false false SUndefined SUndefined false.

Definition forwardRef_store : Store :=
  mkStore {[ 4 := broken_forwardRef ]} 5 (Some 0) (fun _ => None) [].

(** ** More vocabulary: events and actions *)

Definition is_WillReact (e : Event) : bool :=
  match e with WillReact => true | _ => false end.


Definition is_ErrorsReporterEmit (e : Event) : bool :=
  match e with ErrorsReporterEmit _ => true | _ => false end.

Definition is_RenderReporterEmit (e : Event) : bool :=
  match e with RenderReporterEmit _ => true | _ => false end.

(** Any action but [trackComponents()]. *)
Definition keeps_devtools (a : Action) : bool :=
  match a with ATrackComponents => false | _ => true end.

(** Any action but [useStaticRendering(...)]. *)
Definition leaves_static (a : Action) : bool :=
  match a with AUseStaticRendering _ => false | _ => true end.


(** A component that also defines [componentWillReact], after its first
    render. *)
Definition hooked_world : World :=
  run_actions [ASet Props (pizza 1 1); ARender reading_run]
    (new_world false false (Some HookReturns) Enqueued).

(** The same component under a host whose [forceUpdate] throws. *)
Definition failing_host_world : World :=
  run_actions [ASet Props (pizza 1 1); ARender reading_run]
    (new_world false false (Some HookReturns) (HostThrows boom)).

(** An arrow-function component [(props) => ...]. *)
Definition function_object (propTypes defaultProps : scalar) : ComponentObject :=
  mkObject true false false None empty_target None false false
    propTypes defaultProps false.

(** A component as mobx-react-lite makes it around the function at [r]. *)
Definition memo_component (r : nat) : ComponentObject :=
  mkObject false false false None
    (with_render (PLiteObserver r) empty_target)
    None false false SUndefined SUndefined false.

(** A function component in a module where mobx-react-lite wraps, and in
    one where it hands the function back (static rendering). *)
Definition function_store : Store :=
  mkStore {[ 1 := function_object (SRef 7) SUndefined ]} 2 (Some 0)
    (fun r => Some (memo_component r)) [].

Definition static_function_store : Store :=
  mkStore {[ 1 := function_object (SRef 7) SUndefined ]} 2 (Some 0)
    (fun _ => None) [].

(** What [forwardRef((props, ref) => ...)] returns. *)
Definition good_forwardRef : ComponentObject :=
  mkObject false false false (Some 0)
    (with_render (PUserFn 3) empty_target)
    None false false SUndefined SUndefined false.

Definition good_forwardRef_store : Store :=
  mkStore {[ 4 := good_forwardRef ]} 5 (Some 0) (fun _ => None) [].

(** The component has a [shouldComponentUpdate] of its own. *)
Definition custom_sCU (o : ComponentObject) : bool :=
  prop_truthy (t_shouldComponentUpdate (target_of o))
  && negb (is_mixin_sCU (t_shouldComponentUpdate (target_of o))).

(** The path [observer] takes for an object. *)
Definition class_path (s : Store) (o : ComponentObject) : bool :=
  negb (is_forwardRef s o) && negb (is_function_component o).

(** ** Hidden properties of a plain object *)

(** [setHiddenProp], lines 41-52, on an object with its own data
    properties and their attributes.  The keys of the source are symbols,
    here numbered.  Accessor properties are not represented. *)
Module Hidden.

Record Descriptor : Type := mkDescriptor {
  d_value : value;
  d_enumerable : bool;
  d_configurable : bool;
  d_writable : bool
}.

Record Obj : Type := mkObj {
  own_properties : gmap nat Descriptor;
  extensible : bool
}.

Inductive Res (A : Type) : Type :=
| Done (a : A)
| Fail (e : JsError).
Arguments Done {A} a.
Arguments Fail {A} e.

(** [Object.hasOwnProperty.call(target, prop)]. *)
Definition hasOwnProperty (target : Obj) (prop : nat) : bool :=
  match own_properties target !! prop with
  | Some _ => true
  | None => false
  end.

(** [Object.defineProperty(target, prop, desc)] for a key that is not an
    own property: refused on an object that is not extensible. *)
Definition defineProperty (target : Obj) (prop : nat) (desc : Descriptor)
    : Res Obj :=
  if extensible target then
    Done (mkObj (<[prop := desc]> (own_properties target)) true)
  else Fail TypeError.

(** [target[prop] = value] for an own data property, in strict mode. *)
Definition assign (target : Obj) (prop : nat) (v : value) : Res Obj :=
  match own_properties target !! prop with
  | Some d =>
      if d_writable d then
        Done (mkObj (<[prop := mkDescriptor v (d_enumerable d)
                                 (d_configurable d) true]>
                       (own_properties target))
                    (extensible target))
      else Fail TypeError
  | None => defineProperty target prop (mkDescriptor v true true true)
  end.

Definition setHiddenProp (target : Obj) (prop : nat) (v : value) : Res Obj :=
  if negb (hasOwnProperty target prop) then
    defineProperty target prop (mkDescriptor v false true true)
  else assign target prop v.

(** [target[prop]] for own data properties. *)
Definition get (target : Obj) (prop : nat) : value :=
  match own_properties target !! prop with
  | Some d => d_value d
  | None => undefined
  end.

(** [prop] is listed by [Object.keys(target)] and [for ... in]. *)
Definition enumerable (target : Obj) (prop : nat) : bool :=
  match own_properties target !! prop with
  | Some d => d_enumerable d
  | None => false
  end.

(** Successive calls, as [makeComponentReactive] and the setter make
    them; the first failure ends the sequence. *)
Fixpoint setHiddenProps (l : list (nat * value)) (target : Obj) : Res Obj :=
  match l with
  | [] => Done target
  | (prop, v) :: l' =>
      match setHiddenProp target prop v with
      | Done target' => setHiddenProps l' target'
      | Fail e => Fail e
      end
  end.

(** The object can take any hidden property: it is extensible and all
    its own properties are writable. *)
Definition open_object (target : Obj) : Prop :=
  extensible target = true /\
  forall prop d, own_properties target !! prop = Some d -> d_writable d = true.

(** The value last given to [prop] in [l], if any. *)
Fixpoint last_write (prop : nat) (l : list (nat * value)) : option value :=
  match l with
  | [] => None
  | (k, v) :: l' =>
      match last_write prop l' with
      | Some v' => Some v'
      | None => if Nat.eqb k prop then Some v else None
      end
  end.

Definition empty : Obj := mkObj ∅ true.

End Hidden.

(** ** The component registry and the render reports *)

(** [findDOMNode], [reportRendering], [trackComponents] and the
    instrumented part of the three lifecycle methods, lines 54-85 and
    192-219, with [componentByNodeRegistry] and the payload of the events
    of [renderReporter].  The disposal of the Reaction and the unmounted
    mark of [componentWillUnmount] are in the run time above. *)
Module Devtools.

(** What [react-dom]'s [findDOMNode(component)] does. *)
Inductive DomLookup : Type :=
| DomNode (node : nat)
| DomNull
| DomThrows.

(** A component instance as the instrumentation sees it: its identity
    and the two timestamps [reactiveRender] leaves on it while the
    devtools are enabled ([None] for [undefined]). *)
Record Instance : Type := mkInstance {
  ident : nat;
  mobRenderStart : option Z;
  mobRenderEnd : option Z
}.

(** The events given to [renderReporter.emit].  A time is [None] when the
    subtraction has an [undefined] operand (NaN). *)
Inductive Report : Type :=
| RenderReport (renderTime totalTime : option Z) (component : nat)
    (node : option nat)
| DestroyReport (component : nat) (node : option nat).

(** The module-level state: [isDevtoolsEnabled], [componentByNodeRegistry]
    ([None] where [WeakMap] does not exist, line 25) and what
    [renderReporter] has emitted. *)
Record State : Type := mkState {
  isDevtoolsEnabled : bool;
  componentByNodeRegistry : option (gmap nat nat);
  renderReporter : list Report
}.

(** The environment: whether [WeakMap] exists, and [react-dom]'s
    [findDOMNode] when the import provides one. *)
Record Env : Type := mkEnv {
  hasWeakMap : bool;
  baseFindDOMNode : option (nat -> DomLookup)
}.

Definition initial (env : Env) : State :=
  mkState false (if hasWeakMap env then Some ∅ else None) [].

(** [findDOMNode], lines 54-66. *)
Definition findDOMNode (env : Env) (component : nat) : option nat :=
  match baseFindDOMNode env with
  | Some base =>
      match base component with
      | DomNode node => Some node
      | DomNull => None
      | DomThrows => None
      end
  | None => None
  end.

(** [a - b] on timestamps. *)
Definition minus (a b : option Z) : option Z :=
  match a, b with
  | Some x, Some y => Some (x - y)%Z
  | _, _ => None
  end.

(** [reportRendering], lines 68-79; [now] is [Date.now()]. *)
Definition reportRendering (env : Env) (now : Z) (component : Instance)
    (s : State) : State :=
  let node := findDOMNode env (ident component) in
  let registry :=
    match node, componentByNodeRegistry s with
    | Some n, Some m => Some (<[n := ident component]> m)
    | _, r => r
    end in
  mkState (isDevtoolsEnabled s) registry
    (renderReporter s ++
     [RenderReport (minus (mobRenderEnd component) (mobRenderStart component))
        (minus (Some now) (mobRenderStart component))
        (ident component) node]).

Definition unsupported : string :=
  "[mobx-react] tracking components is not supported in this browser."%string.

(** [trackComponents], lines 81-85. *)
Definition trackComponents (env : Env) (s : State) : Hidden.Res State :=
  if negb (hasWeakMap env) then Hidden.Fail (Error unsupported)
  else if negb (isDevtoolsEnabled s) then
    Hidden.Done (mkState true (componentByNodeRegistry s) (renderReporter s))
  else Hidden.Done s.

(** [reactiveMixin.componentDidMount] and [componentDidUpdate]. *)
Definition componentDidMount (env : Env) (now : Z) (component : Instance)
    (s : State) : State :=
  if isDevtoolsEnabled s then reportRendering env now component s else s.

Definition componentDidUpdate (env : Env) (now : Z) (component : Instance)
    (s : State) : State :=
  if isDevtoolsEnabled s then reportRendering env now component s else s.

(** [reactiveMixin.componentWillUnmount], lines 193 and 196-206. *)
Definition componentWillUnmount (env : Env) (isUsingStaticRendering : bool)
    (component : Instance) (s : State) : State :=
  if isUsingStaticRendering then s
  else if isDevtoolsEnabled s then
    let node := findDOMNode env (ident component) in
    let registry :=
      match node, componentByNodeRegistry s with
      | Some n, Some m => Some (delete n m)
      | _, r => r
      end in
    mkState (isDevtoolsEnabled s) registry
      (renderReporter s ++ [DestroyReport (ident component) node])
  else s.

(** What the application and the host do to the instrumentation. *)
Inductive Op : Type :=
| OpTrackComponents
| OpDidMount (now : Z) (component : Instance)
| OpDidUpdate (now : Z) (component : Instance)
| OpWillUnmount (isUsingStaticRendering : bool) (component : Instance).

(** A call of [trackComponents] that throws leaves the state alone. *)
Definition step (env : Env) (op : Op) (s : State) : State :=
  match op with
  | OpTrackComponents =>
      match trackComponents env s with
      | Hidden.Done s' => s'
      | Hidden.Fail _ => s
      end
  | OpDidMount now c => componentDidMount env now c s
  | OpDidUpdate now c => componentDidUpdate env now c s
  | OpWillUnmount static c => componentWillUnmount env static c s
  end.

Definition run (env : Env) (ops : list Op) (s : State) : State :=
  fold_left (fun s op => step env op s) ops s.

(** The registry entry of a node. *)
Definition registered (s : State) (node : nat) : option nat :=
  match componentByNodeRegistry s with
  | Some m => m !! node
  | None => None
  end.

End Devtools.

(** An environment with [WeakMap] where component [c] sits on DOM node
    [c + 100], one where [findDOMNode] throws, and an instance rendered
    between times 10 and 14. *)
Definition dom_env : Devtools.Env :=
  Devtools.mkEnv true (Some (fun c => Devtools.DomNode (c + 100))).

Definition timed_instance : Devtools.Instance :=
  Devtools.mkInstance 1 (Some 10%Z) (Some 14%Z).

Definition test_renderer_env : Devtools.Env :=
  Devtools.mkEnv true (Some (fun _ => Devtools.DomThrows)).

(** * Properties *)

(** ** Bookkeeping on logs *)

Lemma count_app (f : Event -> bool) (l l' : list Event) :
  count f (l ++ l') = count f l + count f l'.
Proof.
  unfold count. rewrite List.filter_app, length_app. reflexivity.
Qed.

Lemma read_all_spec (l : list Atom) (w : World) :
  read_all l w =
  (Returned tt,
   with_tracking (option_map (fun t => t ++ l) (tracking w))
     (with_this (touch l) w)).
Proof.
  revert w. induction l as [|a l IH]; intros [dev st c tr h lg].
  - cbn. destruct tr as [t|]; cbn; [rewrite app_nil_r|]; reflexivity.
  - cbn [read_all]. unfold bind at 1.
    destruct a as [p|n]; cbn.
    + rewrite IH. cbn. destruct tr as [t|]; cbn; [rewrite <- app_assoc|]; reflexivity.
    + rewrite IH. cbn. destruct tr as [t|]; cbn; [rewrite <- app_assoc|]; reflexivity.
Qed.

Lemma touch_spec (l : list Atom) (c : Component) :
  touch l c =
  mkComponent (props_valueHolder c) (state_valueHolder c)
    (props_atomHolder c || touched Props l)
    (state_atomHolder c || touched State l)
    (skipRender c) (isForcingUpdate c) (mobxIsUnmounted c) (reaction c)
    (isRenderingPending c) (componentWillReact c).
Proof.
  revert c. induction l as [|a l IH]; intros [pv sv pa sa sk fu um re pe hk].
  - cbn. rewrite !orb_false_r. reflexivity.
  - cbn [touch fold_left]. fold (touch l). rewrite IH.
    destruct a as [[]|n]; cbn; rewrite ?orb_true_r, ?orb_false_r; try reflexivity;
      destruct pa, sa; reflexivity.
Qed.

Ltac unfold_monad :=
  unfold try_finally, setHiddenProp, emit in *;
  unfold exec, result, bind, try_catch, ret, get, modify, throw in *.

Ltac unfold_runtime :=
  unfold step, render, makeComponentReactive, reactiveRender, track,
    baseRender, setter, reportChanged, runReaction, onInvalidate, run_hook,
    componentWillUnmount, componentDidMount, componentDidUpdate,
    reportRendering, forceUpdate, dispose, getter, getAtom, reportObserved,
    shouldComponentUpdate, useStaticRendering, trackComponents in *;
  unfold_monad.

Ltac destruct_world w :=
  let dev := fresh "dev" in
  let st := fresh "st" in
  let tr := fresh "tr" in
  let h := fresh "h" in
  let lg := fresh "lg" in
  let pv := fresh "pv" in
  let sv := fresh "sv" in
  let pa := fresh "pa" in
  let sa := fresh "sa" in
  let sk := fresh "sk" in
  let fu := fresh "fu" in
  let um := fresh "um" in
  let re := fresh "re" in
  let pe := fresh "pe" in
  let hk := fresh "hk" in
  destruct w as [dev st [pv sv pa sa sk fu um re pe hk] tr h lg].

Lemma runReaction_frame (w : World) :
  exists evs,
    result runReaction w = Returned tt /\
    log (exec runReaction w) = log w ++ evs /\
    forallb callback_event evs = true /\
    props_valueHolder (this (exec runReaction w)) = props_valueHolder (this w) /\
    state_valueHolder (this (exec runReaction w)) = state_valueHolder (this w) /\
    skipRender (this (exec runReaction w)) = skipRender (this w).
Proof.
  destruct_world w. unfold_runtime. cbn.
  destruct re as [[d obs]|]; [destruct d|]; cbn;
    try (exists []; rewrite app_nil_r; repeat split; reflexivity).
  destruct pe; cbn;
    try (exists []; rewrite app_nil_r; repeat split; reflexivity).
  destruct hk as [[]|], st, dev, um, sk, h; cbn; rewrite <- ?app_assoc; cbn;
    eexists; (repeat split; first [reflexivity | symmetry; apply app_nil_r]).
Qed.

Arguments runReaction : simpl never.
Arguments count : simpl never.

Lemma count_none (f g : Event -> bool) (evs : list Event) :
  (forall e, g e = true -> f e = false) ->
  forallb g evs = true -> count f evs = 0.
Proof.
  intros Hfg. unfold count. induction evs as [|e evs IH]; cbn; [reflexivity|].
  intros H. apply andb_prop in H as [He Hevs].
  rewrite (Hfg e He). exact (IH Hevs).
Qed.

Lemma callback_not_ReportChanged (e : Event) :
  callback_event e = true -> is_ReportChanged e = false.
Proof. destruct e; cbn; congruence. Qed.

Lemma callback_not_BaseRender (e : Event) :
  callback_event e = true -> is_BaseRender e = false.
Proof. destruct e; cbn; congruence. Qed.

(** ** Shallow comparison *)

Lemma scalar_eqb_refl (x : scalar) : scalar_eqb x x = true.
Proof.
  destruct x; cbn; auto using Bool.eqb_reflx, Z.eqb_refl, String.eqb_refl,
    Nat.eqb_refl.
Qed.

Lemma strictEqual_refl (a : value) : strictEqual a a = true.
Proof.
  destruct a as [x|r fs]; cbn; [|apply Nat.eqb_refl].
  destruct x; cbn; auto using Bool.eqb_reflx, Z.eqb_refl, String.eqb_refl,
    Nat.eqb_refl.
Qed.

Lemma shallowEqual_refl (a : value) : shallowEqual a a = true.
Proof. unfold shallowEqual. rewrite strictEqual_refl. reflexivity. Qed.

(** Two keys lists disagree exactly when some key of the first is missing
    from the second or carries another value there. *)
Lemma keys_agree_false_iff (fa fb : list (string * scalar)) :
  keys_agree fa fb = false <->
  exists k x, In (k, x) fa /\
    match lookup_key k fb with
    | Some y => scalar_eqb x y = false
    | None => True
    end.
Proof.
  induction fa as [|[k x] fa IH]; cbn.
  - split; [discriminate | intros (k & x & [] & _)].
  - destruct (lookup_key k fb) as [y|] eqn:Hk.
    + rewrite andb_false_iff, IH. split.
      * intros [Hx | (k' & x' & Hin & H)].
        -- exists k, x. rewrite Hk. auto.
        -- exists k', x'. auto.
      * intros (k' & x' & [Heq | Hin] & H).
        -- injection Heq as <- <-. rewrite Hk in H. auto.
        -- right. exists k', x'. auto.
    + split; [|reflexivity]. intros _. exists k, x. rewrite Hk. auto.
Qed.

(** Section 4.2, edge case: a new object with the same scalars is equal, a
    new reference under a key is a change. *)
Example shallowEqual_examples :
  shallowEqual (pizza 1 1) (pizza 3 1) = true /\
  shallowEqual (pizza 1 1) (pizza 2 2) = false /\
  shallowEqual (VObject 1 [("store"%string, SRef 10)])
               (VObject 2 [("store"%string, SRef 11)]) = false.
Proof. vm_compute. repeat split; reflexivity. Qed.

(** ** The observable props / state cell *)

(** C1.  A write [v] to the [props] or [state] cell always stores [v] and
    returns normally.  When the instance is forcing an update, or [v] is
    shallow-equal to the stored value, nothing at all is emitted; otherwise
    [atom.reportChanged()] of that cell is emitted, once, before the setter
    returns: it is the first event of the write and no other report
    follows it. *)
Theorem setter_reports_change_once (p : PropName) (v : value) (w : World) :
  let w' := exec (setter p v) w in
  result (setter p v) w = Returned tt /\
  valueHolder p (this w') = v /\
  (if isForcingUpdate (this w) || shallowEqual (valueHolder p (this w)) v
   then log w' = log w
   else
     count is_ReportChanged (log w') = S (count is_ReportChanged (log w)) /\
     exists evs,
       log w' = log w ++ ReportChanged (CellAtom p) :: evs /\
       count is_ReportChanged evs = 0).
Proof.
  destruct_world w. cbn [this isForcingUpdate log].
  unfold setter, reportChanged, getAtom. unfold_monad.
  cbn [this isForcingUpdate].
  destruct fu; cbn [negb andb orb].
  { destruct p; cbn; repeat split; reflexivity. }
  destruct (shallowEqual _ v) eqn:Hse; cbn [negb andb orb].
  { destruct p; cbn; repeat split; reflexivity. }
  assert (Hcount : forall evs, forallb callback_event evs = true ->
                     count is_ReportChanged evs = 0)
    by (intros evs; apply count_none, callback_not_ReportChanged).
  assert (Hquiet : forall lg0 : list Event,
            count is_ReportChanged (lg0 ++ [ReportChanged (CellAtom p)]) =
              S (count is_ReportChanged lg0) /\
            exists evs, lg0 ++ [ReportChanged (CellAtom p)] =
                          lg0 ++ ReportChanged (CellAtom p) :: evs /\
                        count is_ReportChanged evs = 0).
  { intros lg0. rewrite count_app. change (count is_ReportChanged [ReportChanged (CellAtom p)]) with 1.
    split; [lia|].
    exists []. split; reflexivity. }
  destruct p; cbn;
    (destruct re as [r|]; cbn; [destruct (observes _ r); cbn|]);
    try (split; [reflexivity | split; [reflexivity | apply Hquiet]]);
    match goal with
    | |- context [runReaction ?W] =>
        destruct (runReaction_frame W) as (evs & Hres & Hlog & Hev & Hp & Hs & _);
        unfold exec, result in Hres, Hlog, Hp, Hs;
        destruct (runReaction W) as [c W'];
        cbn in Hres, Hlog, Hp, Hs; subst c; cbn
    end;
    rewrite Hlog, <- app_assoc, !count_app, (Hcount evs Hev);
    match goal with
    | |- context [count is_ReportChanged [ReportChanged ?a]] =>
        change (count is_ReportChanged [ReportChanged a]) with 1
    end;
    (split; [reflexivity | split; [assumption | split; [lia |]]]);
    exists evs; split; [reflexivity | auto | reflexivity | auto].
Qed.

Lemma count_snoc (f : Event -> bool) (l : list Event) (e : Event) :
  count f (l ++ [e]) = count f l + (if f e then 1 else 0).
Proof. rewrite count_app. unfold count. cbn. destruct (f e); reflexivity. Qed.

Ltac count_log :=
  cbn [log this]; rewrite ?count_snoc; cbn [is_ForceUpdate is_BaseRender is_Dispose
    is_ReportChanged is_Destroy]; try lia.

(** The scenario of section 8, item 5: the parent hands over a new props
    object with the same [pizza], then one with another [pizza]. *)
Example setter_pizza_scenario :
  let same := step (ASet Props (pizza 3 1)) mounted_world in
  let more := step (ASet Props (pizza 2 2)) mounted_world in
  log same = log mounted_world /\
  props_valueHolder (this same) = pizza 3 1 /\
  count is_ReportChanged (log more) =
    count is_ReportChanged (log mounted_world) + 1 /\
  props_valueHolder (this more) = pizza 2 2.
Proof. vm_compute. repeat split; reflexivity. Qed.

(** ** Terminal states *)

Lemma read_all_explicit (l : list Atom) (w : World) :
  read_all l w =
  (Returned tt,
   mkWorld (isDevtoolsEnabled w) (isUsingStaticRendering w)
     (mkComponent (props_valueHolder (this w)) (state_valueHolder (this w))
        (props_atomHolder (this w) || touched Props l)
        (state_atomHolder (this w) || touched State l)
        (skipRender (this w)) (isForcingUpdate (this w))
        (mobxIsUnmounted (this w)) (reaction (this w))
        (isRenderingPending (this w)) (componentWillReact (this w)))
     (option_map (fun t => t ++ l) (tracking w)) (hostReply w) (log w)).
Proof. rewrite read_all_spec. unfold with_this. rewrite touch_spec. reflexivity. Qed.

(** Case analysis on whatever the code branches on. *)
Ltac break :=
  match goal with
  | |- context [match ?x with _ => _ end] => is_var x; destruct x
  | |- context [negb ?x] => is_var x; destruct x
  | |- context [andb ?x _] => is_var x; destruct x
  | |- context [orb ?x _] => is_var x; destruct x
  | |- context [with_valueHolder ?p] => is_var p; destruct p
  | |- context [with_atomHolder ?p] => is_var p; destruct p
  | |- context [valueHolder ?p] => is_var p; destruct p
  | |- context [observes ?a ?r] => is_var r; destruct r
  | |- context [isDisposed ?r] => is_var r; destruct r
  | |- context [observing ?r] => is_var r; destruct r
  | |- context [outcome ?r] => destruct (outcome r) eqn:?
  | |- context [truthy ?e] => destruct (truthy e) eqn:?
  | |- context [shallowEqual ?a ?b] => destruct (shallowEqual a b) eqn:?
  | |- context [existsb ?f ?l] => destruct (existsb f l) eqn:?
  end.

Ltac run_cases :=
  repeat (cbn; unfold_monad; try rewrite read_all_explicit; try break).

Ltac by_cases w :=
  destruct_world w; unfold_runtime; run_cases.

Lemma unmounted_step (a : Action) (w : World) :
  mobxIsUnmounted (this w) = true ->
  mobxIsUnmounted (this (step a w)) = true /\
  count is_ForceUpdate (log (step a w)) = count is_ForceUpdate (log w).
Proof.
  destruct a; by_cases w; intros; subst; split;
    first [reflexivity | discriminate | count_log].
Qed.

Lemma disposed_step (a : Action) (w : World) :
  session_disposed w = true ->
  session_disposed (step a w) = true /\
  count is_ForceUpdate (log (step a w)) = count is_ForceUpdate (log w).
Proof.
  unfold session_disposed.
  destruct a; by_cases w; intros; subst; split;
    first [reflexivity | discriminate | count_log].
Qed.

Lemma static_step (a : Action) (w : World) :
  isUsingStaticRendering w = true ->
  reaction (this w) = None ->
  keeps_static a = true ->
  isUsingStaticRendering (step a w) = true /\
  reaction (this (step a w)) = None /\
  count is_ForceUpdate (log (step a w)) = count is_ForceUpdate (log w).
Proof.
  destruct a; by_cases w; intros; subst; repeat split;
    first [reflexivity | discriminate | count_log].
Qed.

Lemma pending_sticky (a : Action) (w : World) :
  isRenderingPending (this w) = true ->
  is_render a = false ->
  isRenderingPending (this (step a w)) = true.
Proof.
  destruct a; by_cases w; intros; subst; first [reflexivity | discriminate].
Qed.


Lemma change_no_render (a : Atom) (w : World) :
  count is_BaseRender (log (step (AChange a) w)) = count is_BaseRender (log w) /\
  has_session (step (AChange a) w) = has_session w.
Proof.
  unfold has_session.
  by_cases w; intros; subst; split; first [reflexivity | count_log].
Qed.

Lemma first_notification (a : Atom) (r : Reaction) (w : World) :
  reaction (this w) = Some r ->
  isDisposed r = false ->
  observes a r = true ->
  isRenderingPending (this w) = false ->
  isRenderingPending (this (step (AChange a) w)) = true /\
  count is_ForceUpdate (log (step (AChange a) w)) =
    count is_ForceUpdate (log w)
    + (if skipRender (this w) || unmounted_after_hook w || hook_throws w
       then 0 else 1).
Proof.
  unfold unmounted_after_hook, hook_throws.
  destruct_world w. cbn [this reaction isRenderingPending]. intros -> Hd Ho ->.
  destruct r as [d obs]. cbn in Hd, Ho. subst d. unfold observes in Ho. cbn in Ho.
  unfold_runtime. cbn. unfold observes. cbn. rewrite Ho. run_cases; split;
   first [reflexivity | count_log].
Qed.


(** ** Runs of actions *)

Lemma unmounted_run (l : list Action) (w : World) :
  mobxIsUnmounted (this w) = true ->
  mobxIsUnmounted (this (run_actions l w)) = true /\
  count is_ForceUpdate (log (run_actions l w)) = count is_ForceUpdate (log w).
Proof.
  revert w. induction l as [|a l IH]; intros w H; [split; [exact H | reflexivity]|].
  destruct (unmounted_step a w H) as [H1 H2].
  destruct (IH (step a w) H1) as [H3 H4].
  cbn [run_actions fold_left]. fold (run_actions l (step a w)).
  split; [exact H3 | congruence].
Qed.

Lemma disposed_run (l : list Action) (w : World) :
  session_disposed w = true ->
  session_disposed (run_actions l w) = true /\
  count is_ForceUpdate (log (run_actions l w)) = count is_ForceUpdate (log w).
Proof.
  revert w. induction l as [|a l IH]; intros w H; [split; [exact H | reflexivity]|].
  destruct (disposed_step a w H) as [H1 H2].
  destruct (IH (step a w) H1) as [H3 H4].
  cbn [run_actions fold_left]. fold (run_actions l (step a w)).
  split; [exact H3 | congruence].
Qed.

Lemma static_run (l : list Action) (w : World) :
  isUsingStaticRendering w = true ->
  reaction (this w) = None ->
  forallb keeps_static l = true ->
  isUsingStaticRendering (run_actions l w) = true /\
  reaction (this (run_actions l w)) = None /\
  count is_ForceUpdate (log (run_actions l w)) = count is_ForceUpdate (log w).
Proof.
  revert w. induction l as [|a l IH]; intros w Hs Hr Hl; [repeat split; assumption|].
  cbn in Hl. apply andb_prop in Hl as [Ha Hl].
  destruct (static_step a w Hs Hr Ha) as (H1 & H2 & H3).
  destruct (IH (step a w) H1 H2 Hl) as (H4 & H5 & H6).
  cbn [run_actions fold_left]. fold (run_actions l (step a w)).
  repeat split; [exact H4 | exact H5 | congruence].
Qed.


Lemma changes_no_render (l : list Atom) (w : World) :
  count is_BaseRender (log (run_actions (map AChange l) w)) =
    count is_BaseRender (log w) /\
  has_session (run_actions (map AChange l) w) = has_session w.
Proof.
  revert w. induction l as [|a l IH]; intros w; [split; reflexivity|].
  destruct (change_no_render a w) as [H1 H2].
  destruct (IH (step (AChange a) w)) as [H3 H4].
  cbn [map run_actions fold_left]. fold (run_actions (map AChange l) (step (AChange a) w)).
  split; congruence.
Qed.

Lemma changes_not_render (l : list Atom) :
  forallb (fun a => negb (is_render a)) (map AChange l) = true.
Proof. induction l as [|a l IH]; cbn; [reflexivity | exact IH]. Qed.

(** ** Coalescing of notifications *)




(** ** Failing renders *)

Lemma render_throwing (w : World) (run : RenderRun) (e : value) :
  outcome run = Thrown e ->
  truthy e = true ->
  tracked_render w = true ->
  session_disposed w = false ->
  result (render run) w = Thrown e /\
  session_disposed (exec (render run) w) = true /\
  log (exec (render run) w) =
    log w ++ (if has_session w then [] else [NewReaction])
          ++ [BaseRender; Dispose; ErrorsReporterEmit e].
Proof.
  unfold tracked_render, has_session, session_disposed.
  destruct_world w. intros Ho Ht. unfold_runtime. cbn.
  destruct re as [[d obs]|]; [destruct d|destruct st]; cbn; try discriminate;
    intros _ _; rewrite read_all_explicit; cbn; rewrite Ho; cbn; rewrite Ht; cbn;
    rewrite <- ?app_assoc; repeat split; reflexivity.
Qed.

(** When the component's own render throws a truthy value [e] (every
    Error object is one) during a tracked render over a Reaction that is
    not disposed, the wrapper disposes the Reaction, then emits [e] on
    [errorsReporter], then rethrows the same [e]; from then on no action
    on the instance, and in particular no change of a dependency, requests
    a re-render or runs the component's render. *)
Theorem render_error_disposes_reports_rethrows
    (w : World) (run : RenderRun) (e : value) :
  outcome run = Thrown e ->
  truthy e = true ->
  tracked_render w = true ->
  session_disposed w = false ->
  let w' := exec (render run) w in
  result (render run) w = Thrown e /\
  session_disposed w' = true /\
  log w' = log w ++ (if has_session w then [] else [NewReaction])
                 ++ [BaseRender; Dispose; ErrorsReporterEmit e] /\
  (forall acts : list Action,
     session_disposed (run_actions acts w') = true /\
     count is_ForceUpdate (log (run_actions acts w')) =
       count is_ForceUpdate (log w')) /\
  (forall l : list Atom,
     count is_BaseRender (log (run_actions (map AChange l) w')) =
       count is_BaseRender (log w')).
Proof.
  intros Ho Ht Htr Hnd.
  destruct (render_throwing w run e Ho Ht Htr Hnd) as (H1 & H2 & H3).
  cbv zeta. repeat split; try assumption.
  - apply disposed_run; exact H2.
  - apply disposed_run; exact H2.
  - intros l. apply changes_no_render.
Qed.

Lemma render_error_disposes_reports_rethrows_witness :
  let w := mounted_world in
  let w' := exec (render throwing_run) w in
  result (render throwing_run) w = Thrown boom /\
  session_disposed w' = true /\
  count is_ForceUpdate (log (run_actions (map AChange [ExternalAtom 0; CellAtom Props]) w')) =
    count is_ForceUpdate (log w').
Proof.
  pose proof (render_error_disposes_reports_rethrows mounted_world throwing_run
                boom eq_refl eq_refl eq_refl eq_refl) as H.
  cbv zeta in H. destruct H as (H1 & H2 & _ & H4 & _).
  split; [exact H1 | split; [exact H2 |]].
  exact (proj2 (H4 (map AChange [ExternalAtom 0; CellAtom Props]))).
Defined.

Lemma render_falsy (w : World) (run : RenderRun) (e : value) :
  outcome run = Thrown e ->
  truthy e = false ->
  tracked_render w = true ->
  session_disposed w = false ->
  result (render run) w = Returned undefined /\
  reaction (this (exec (render run) w)) = Some (mkReaction false (reads run)) /\
  isRenderingPending (this (exec (render run) w)) = false /\
  skipRender (this (exec (render run) w)) = (has_session w && skipRender (this w)) /\
  mobxIsUnmounted (this (exec (render run) w)) = mobxIsUnmounted (this w) /\
  componentWillReact (this (exec (render run) w)) = componentWillReact (this w) /\
  isUsingStaticRendering (exec (render run) w) = isUsingStaticRendering w /\
  log (exec (render run) w) =
    log w ++ (if has_session w then [] else [NewReaction]) ++ [BaseRender].
Proof.
  unfold tracked_render, has_session, session_disposed.
  destruct_world w. intros Ho Ht. unfold_runtime. cbn.
  destruct re as [[d obs]|]; [destruct d|destruct st]; cbn; try discriminate;
    intros _ _; rewrite read_all_explicit; cbn; rewrite Ho; cbn; rewrite Ht; cbn;
    rewrite <- ?app_assoc; repeat split; reflexivity.
Qed.

(** C3.  What the code does with a thrown value that is falsy
    ([undefined], [null], [0], the empty string, [false]): the test of
    line 126 is [if (exception)], so during a tracked render over a live
    Reaction the wrapper takes it for "no exception".  It returns
    [undefined] instead of rethrowing, the Reaction is not disposed and
    stays subscribed to what the render read, and nothing goes to
    [errorsReporter]; a later change of a dependency that render read is
    still delivered and requests a re-render. *)
Theorem render_swallows_falsy_exception
    (w : World) (run : RenderRun) (e : value) :
  outcome run = Thrown e ->
  truthy e = false ->
  tracked_render w = true ->
  session_disposed w = false ->
  let w' := exec (render run) w in
  result (render run) w = Returned undefined /\
  session_disposed w' = false /\
  reaction (this w') = Some (mkReaction false (reads run)) /\
  log w' = log w ++ (if has_session w then [] else [NewReaction]) ++ [BaseRender] /\
  (forall a : Atom,
     existsb (Atom_eqb a) (reads run) = true ->
     isRenderingPending (this (step (AChange a) w')) = true /\
     count is_ForceUpdate (log (step (AChange a) w')) =
       count is_ForceUpdate (log w')
       + (if (has_session w && skipRender (this w)) || unmounted_after_hook w
             || hook_throws w
          then 0 else 1)).
Proof.
  intros Ho Ht Htr Hnd.
  destruct (render_falsy w run e Ho Ht Htr Hnd)
    as (H1 & H2 & H3 & H4 & H5 & H6 & H7 & H8).
  cbv zeta. split; [exact H1|]. split; [unfold session_disposed; rewrite H2; reflexivity|].
  split; [exact H2|]. split; [exact H8|].
  intros a Ha.
  destruct (first_notification a (mkReaction false (reads run)) _ H2 eq_refl Ha H3)
    as [F1 F2].
  split; [exact F1|]. rewrite F2, H4.
  unfold unmounted_after_hook, hook_throws. rewrite H5, H6, H7. reflexivity.
Qed.

(** A render that does [throw undefined]. *)
Lemma render_swallows_falsy_exception_witness :
  let run := mkRun [ExternalAtom 0] (Thrown undefined) in
  let w' := exec (render run) mounted_world in
  result (render run) mounted_world = Returned undefined /\
  session_disposed w' = false /\
  count is_Dispose (log w') = 0 /\
  count is_ForceUpdate (log (step (AChange (ExternalAtom 0)) w')) =
    count is_ForceUpdate (log w') + 1.
Proof.
  pose proof (render_swallows_falsy_exception mounted_world
                (mkRun [ExternalAtom 0] (Thrown undefined)) undefined
                eq_refl eq_refl eq_refl eq_refl) as H.
  cbv zeta in H. destruct H as (H1 & H2 & _ & H4 & H5).
  split; [exact H1 | split; [exact H2 | split]].
  - rewrite H4. vm_compute. reflexivity.
  - exact (proj2 (H5 (ExternalAtom 0) eq_refl)).
Defined.

(** The test in [reactiveRender] is [if (exception)]: a thrown value that
    is falsy is taken for "no exception", and the render returns
    [undefined] with the Reaction still live. *)
Lemma reactiveRender_falsy_exception (w : World) (run : RenderRun) (e : value) (r : Reaction) :
  outcome run = Thrown e ->
  truthy e = false ->
  reaction (this w) = Some r ->
  isDisposed r = false ->
  result (reactiveRender run) w = Returned undefined /\
  session_disposed (exec (reactiveRender run) w) = false /\
  log (exec (reactiveRender run) w) = log w ++ [BaseRender].
Proof.
  unfold session_disposed.
  destruct_world w. intros Ho Ht. cbn [this reaction]. intros -> Hd.
  destruct r as [d obs]. cbn in Hd. subst d.
  unfold_runtime. cbn. rewrite read_all_explicit. cbn. rewrite Ho. cbn.
  rewrite Ht. cbn. repeat split; reflexivity.
Qed.

(** ** Unmounting *)

(** C4.  Outside static rendering, [componentWillUnmount] returns
    normally, leaves the component marked unmounted and its Reaction, if
    the render has one attached, disposed; when none is attached nothing
    is disposed and the handler still succeeds, also when it runs a second
    time.  From then on no action on the instance, and in particular no
    change of a dependency, requests a re-render or runs the component's
    render. *)
Theorem unmount_is_terminal (w : World) :
  isUsingStaticRendering w = false ->
  let w' := exec componentWillUnmount w in
  result componentWillUnmount w = Returned tt /\
  mobxIsUnmounted (this w') = true /\
  session_disposed w' = has_session w /\
  has_session w' = has_session w /\
  count is_Dispose (log w') =
    count is_Dispose (log w) + (if has_session w then 1 else 0) /\
  (result componentWillUnmount w' = Returned tt /\
   mobxIsUnmounted (this (exec componentWillUnmount w')) = true) /\
  (forall acts : list Action,
     mobxIsUnmounted (this (run_actions acts w')) = true /\
     count is_ForceUpdate (log (run_actions acts w')) =
       count is_ForceUpdate (log w')) /\
  (forall l : list Atom,
     count is_BaseRender (log (run_actions (map AChange l) w')) =
       count is_BaseRender (log w')).
Proof.
  intros Hs.
  assert (Hum : mobxIsUnmounted (this (exec componentWillUnmount w)) = true).
  { revert Hs. by_cases w; intros; first [reflexivity | discriminate]. }
  cbv zeta. repeat split.
  - revert Hs. by_cases w; intros; first [reflexivity | discriminate].
  - exact Hum.
  - revert Hs. unfold session_disposed, has_session.
    by_cases w; intros; first [reflexivity | discriminate].
  - revert Hs. unfold has_session.
    by_cases w; intros; first [reflexivity | discriminate].
  - revert Hs. unfold has_session.
    by_cases w; intros; first [discriminate | count_log].
  - clear. generalize (exec componentWillUnmount w). intros w0.
    by_cases w0; reflexivity.
  - apply (unmounted_step AUnmount). exact Hum.
  - apply unmounted_run; exact Hum.
  - apply unmounted_run; exact Hum.
  - intros l. apply changes_no_render.
Qed.

Lemma unmount_is_terminal_witness :
  let w' := exec componentWillUnmount mounted_world in
  isUsingStaticRendering mounted_world = false /\
  mobxIsUnmounted (this w') = true /\
  session_disposed w' = true /\
  count is_ForceUpdate
    (log (run_actions (map AChange [ExternalAtom 0; ExternalAtom 0]) w')) =
    count is_ForceUpdate (log w').
Proof.
  pose proof (unmount_is_terminal mounted_world eq_refl) as H.
  cbv zeta in H. destruct H as (_ & H2 & H3 & _ & _ & _ & H7 & _).
  split; [reflexivity | split; [exact H2 | split; [exact H3 |]]].
  exact (proj2 (H7 (map AChange [ExternalAtom 0; ExternalAtom 0]))).
Defined.

(** ** Static rendering *)

Lemma baseRender_untracked (w : World) (run : RenderRun) :
  result (baseRender run) w = outcome run /\
  reaction (this (exec (baseRender run) w)) = reaction (this w) /\
  log (exec (baseRender run) w) = log w ++ [BaseRender].
Proof.
  destruct_world w. unfold_runtime. cbn. rewrite read_all_explicit. cbn.
  destruct (outcome run); cbn; repeat split; reflexivity.
Qed.

(** C5, as the code has it.  With the static-rendering flag enabled, the
    wrapper that [observer] puts on the prototype is the original render
    called directly: same result, no Reaction created.  For an instance
    that holds no Reaction (none was created by a render made while the
    flag was off), no action that leaves the flag enabled (renders, writes
    to props or state, changes of any dependency, unmounting) ever
    requests a re-render or creates a Reaction. *)
Theorem static_rendering_never_tracks (w : World) (run : RenderRun) :
  isUsingStaticRendering w = true ->
  makeComponentReactive run w = baseRender run w /\
  result (makeComponentReactive run) w = outcome run /\
  reaction (this (exec (makeComponentReactive run) w)) = reaction (this w) /\
  log (exec (makeComponentReactive run) w) = log w ++ [BaseRender] /\
  (reaction (this w) = None ->
   forall acts : list Action,
     forallb keeps_static acts = true ->
     reaction (this (run_actions acts w)) = None /\
     count is_ForceUpdate (log (run_actions acts w)) =
       count is_ForceUpdate (log w)).
Proof.
  intros Hs.
  assert (Heq : makeComponentReactive run w = baseRender run w).
  { unfold makeComponentReactive, bind, get. rewrite Hs. reflexivity. }
  destruct (baseRender_untracked w run) as (H1 & H2 & H3).
  unfold result, exec in *. rewrite Heq.
  repeat split; try assumption.
  - apply (static_run acts w Hs H H0).
  - apply (static_run acts w Hs H H0).
Qed.

Lemma static_rendering_never_tracks_witness :
  let acts := [ASet Props (pizza 1 1); ARender reading_run; ADidMount;
               AChange (ExternalAtom 0); ASet Props (pizza 2 2);
               AChange (CellAtom Props); AUnmount] in
  isUsingStaticRendering static_world = true /\
  reaction (this (run_actions acts static_world)) = None /\
  count is_ForceUpdate (log (run_actions acts static_world)) = 0.
Proof.
  pose proof (static_rendering_never_tracks static_world reading_run eq_refl) as H.
  destruct H as (_ & _ & _ & _ & H).
  specialize (H eq_refl
    [ASet Props (pizza 1 1); ARender reading_run; ADidMount;
     AChange (ExternalAtom 0); ASet Props (pizza 2 2);
     AChange (CellAtom Props); AUnmount] eq_refl).
  split; [reflexivity | exact H].
Defined.

(** An instance rendered before the flag is switched on keeps its
    [reactiveRender] and its Reaction: with the flag enabled, a change of a
    dependency it read requests a re-render. *)
Lemma static_flag_after_first_render_still_reacts :
  let w := run_actions [AUseStaticRendering true] mounted_world in
  let w' := step (AChange (ExternalAtom 0)) w in
  isUsingStaticRendering w = true /\
  count is_ForceUpdate (log w) = 0 /\
  count is_ForceUpdate (log w') = 1 /\
  count is_BaseRender (log (step (ARender reading_run) w')) =
    count is_BaseRender (log w') + 1 /\
  count is_ForceUpdate (log w') <> count is_ForceUpdate (log w).
Proof. vm_compute. repeat split; congruence. Qed.

(** C10.  With the static-rendering flag enabled, [componentWillUnmount]
    returns at once and changes nothing: the component is not marked
    unmounted, the Reaction is not disposed and no destroy event is
    emitted, whether or not the devtools are enabled. *)
Theorem unmount_under_static_rendering_is_noop (w : World) :
  isUsingStaticRendering w = true ->
  componentWillUnmount w = (Returned tt, w) /\
  mobxIsUnmounted (this (exec componentWillUnmount w)) = mobxIsUnmounted (this w) /\
  reaction (this (exec componentWillUnmount w)) = reaction (this w) /\
  count is_Dispose (log (exec componentWillUnmount w)) = count is_Dispose (log w) /\
  count is_Destroy (log (exec componentWillUnmount w)) = count is_Destroy (log w).
Proof.
  intros Hs.
  assert (H : componentWillUnmount w = (Returned tt, w)).
  { unfold componentWillUnmount, bind, get, ret. rewrite Hs. reflexivity. }
  unfold exec. rewrite H. repeat split; reflexivity.
Qed.

Lemma unmount_under_static_rendering_is_noop_witness :
  let w := run_actions [ATrackComponents; AUseStaticRendering true] mounted_world in
  isUsingStaticRendering w = true /\
  isDevtoolsEnabled w = true /\
  componentWillUnmount w = (Returned tt, w) /\
  mobxIsUnmounted (this (exec componentWillUnmount w)) = false /\
  count is_Destroy (log (exec componentWillUnmount w)) = 0.
Proof.
  pose proof (unmount_under_static_rendering_is_noop
                (run_actions [ATrackComponents; AUseStaticRendering true] mounted_world)
                eq_refl) as H.
  destruct H as (H1 & H2 & _ & _ & H5).
  split; [reflexivity | split; [reflexivity |]].
  split; [exact H1 | split; [exact H2 | exact H5]].
Defined.

(** ** The transform *)

Lemma prop_isFunction_truthy (p : jsprop) :
  prop_isFunction p = true -> prop_truthy p = true.
Proof. destruct p; cbn; congruence. Qed.

Lemma mixinLifecycleEvents_spec (t : Target) :
  mixinLifecycleEvents t =
  (mkTarget (t_render t)
     (PPatched ComponentDidMount (t_componentDidMount t))
     (PPatched ComponentWillUnmount (t_componentWillUnmount t))
     (PPatched ComponentDidUpdate (t_componentDidUpdate t))
     (if prop_truthy (t_shouldComponentUpdate t) then t_shouldComponentUpdate t
      else PMixinShouldComponentUpdate)
     (t_props_observable t) (t_state_observable t),
   prop_truthy (t_shouldComponentUpdate t)
   && negb (is_mixin_sCU (t_shouldComponentUpdate t))).
Proof.
  destruct t as [rd dm wu du scu po so]. unfold mixinLifecycleEvents. cbn.
  destruct (prop_truthy scu); cbn; [|reflexivity].
  destruct (is_mixin_sCU scu); reflexivity.
Qed.

Lemma class_based_not_function_component (s : Store) (o : ComponentObject) :
  class_based s o = true ->
  is_forwardRef s o = false /\ is_function_component o = false.
Proof.
  unfold class_based, is_function_component. intros H.
  apply andb_prop in H as [Hf Hc]. apply negb_true_iff in Hf. split; [exact Hf|].
  destruct (isFunction o); cbn; [|reflexivity].
  destruct (prototype o) as [t|]; [|discriminate].
  rewrite (prop_isFunction_truthy _ Hc). reflexivity.
Qed.

Lemma observer_object_class_path (r : nat) (o : ComponentObject) (s : Store) :
  is_forwardRef s o = false ->
  is_function_component o = false ->
  observer_object r o s =
  (Ok (VScalar (SRef r)),
   mkStore (<[r := upgraded o]> (objects s)) (next s) (ReactForwardRefSymbol s)
     (observerLite s)
     (console s ++ entry_warnings o
        ++ (if snd (mixinLifecycleEvents (target_of o))
            then [ConsoleWarn sCU_warning] else []))).
Proof.
  intros Hf Hc. unfold observer_object, upgraded, entry_warnings.
  assert (Hf' : forall s', ReactForwardRefSymbol s' = ReactForwardRefSymbol s ->
                  is_forwardRef s' o = false).
  { intros s' E. unfold is_forwardRef in *. rewrite E. exact Hf. }
  rewrite Hf' by (destruct (isMobxInjector o), (superIsPureComponent o); reflexivity).
  rewrite Hc.
  destruct (mixinLifecycleEvents (target_of o)) as [t warned]. cbn [fst snd].
  destruct s as [objs nx fwd lite cs].
  destruct (isMobxInjector o), (superIsPureComponent o), warned;
    unfold with_objects, warn; cbn;
    rewrite <- ?app_assoc, ?app_nil_r; reflexivity.
Qed.

Lemma object_at_lookup (r : nat) (o : ComponentObject) (s : Store) :
  objects s !! r = Some o -> object_at r s = o.
Proof. unfold object_at. intros ->. reflexivity. Qed.

(** C9.  For a class-based component [C] stored at reference [r],
    [observer(C)] returns the reference [r] itself; no object is
    allocated and no other object changes; the object at [r] is [C] with
    [isMobXReactObserver] set and with its target (the prototype, or the
    object itself when it has none) mutated in place: [render] replaced by
    the reactive wrapper around the original render, the three lifecycle
    methods patched, and the accessors for [props] and [state] installed. *)
Theorem observer_upgrades_class_in_place (r : nat) (o : ComponentObject) (s : Store) :
  objects s !! r = Some o ->
  class_based s o = true ->
  exists s' o',
    observer (VScalar (SRef r)) s = (Ok (VScalar (SRef r)), s') /\
    next s' = next s /\
    (forall r', r' <> r -> objects s' !! r' = objects s !! r') /\
    objects s' !! r = Some o' /\
    isMobXReactObserver o' = true /\
    isFunction o' = isFunction o /\
    (prototype o' = None <-> prototype o = None) /\
    (prototype o = None -> own o' = target_of o') /\
    (prototype o <> None -> own o' = own o) /\
    t_render (target_of o') = PObserverRender (t_render (target_of o)) /\
    t_componentDidMount (target_of o') =
      PPatched ComponentDidMount (t_componentDidMount (target_of o)) /\
    t_componentWillUnmount (target_of o') =
      PPatched ComponentWillUnmount (t_componentWillUnmount (target_of o)) /\
    t_componentDidUpdate (target_of o') =
      PPatched ComponentDidUpdate (t_componentDidUpdate (target_of o)) /\
    t_props_observable (target_of o') = true /\
    t_state_observable (target_of o') = true.
Proof.
  intros Hl Hc.
  destruct (class_based_not_function_component s o Hc) as [Hf Hn].
  eexists. exists (upgraded o).
  cbn [observer]. rewrite (object_at_lookup r o s Hl).
  rewrite (observer_object_class_path r o s Hf Hn).
  split; [reflexivity|]. cbn [next objects].
  split; [reflexivity|].
  split; [intros r' Hr'; apply lookup_insert_ne; congruence|].
  split; [apply lookup_insert_eq|].
  unfold upgraded. rewrite mixinLifecycleEvents_spec. cbn [fst].
  destruct o as [fn inj pure tag ow [pt|] rc ec pty dp mo]; cbn;
    repeat split; intros; congruence.
Qed.

Lemma observer_upgrades_class_in_place_witness :
  objects (class_store false PAbsent) !! 1 = Some (class_object false PAbsent) /\
  class_based (class_store false PAbsent) (class_object false PAbsent) = true /\
  fst (observer (VScalar (SRef 1)) (class_store false PAbsent)) = Ok (VScalar (SRef 1)).
Proof.
  destruct (observer_upgrades_class_in_place 1 (class_object false PAbsent)
              (class_store false PAbsent) eq_refl eq_refl) as (s' & o' & H & _).
  split; [reflexivity | split; [reflexivity |]].
  rewrite H. reflexivity.
Defined.

(** ** The default update predicate *)

Lemma shouldComponentUpdate_result (nextProps nextState : value) (w : World) :
  result (shouldComponentUpdate nextProps nextState) w =
  Returned (negb (strictEqual (state_valueHolder (this w)) nextState)
            || negb (shallowEqual (props_valueHolder (this w)) nextProps)).
Proof.
  destruct_world w. unfold_runtime. cbn.
  destruct st, tr; cbn; destruct (strictEqual sv nextState); cbn; reflexivity.
Qed.

(** C6.  Applied to a class-based component, [observer] leaves a falsy
    [shouldComponentUpdate] replaced by the mixin's predicate, without a
    warning about it; that predicate answers [true] exactly when the state
    reference differs from the next state or the shallow comparison of the
    props with the next props fails.  A predicate of the component's own
    (truthy and not the mixin's) stays in place, the transform returns the
    component and the console receives the warning. *)
Theorem default_shouldComponentUpdate_or_warning
    (r : nat) (o : ComponentObject) (s : Store) :
  objects s !! r = Some o ->
  class_based s o = true ->
  let s' := snd (observer (VScalar (SRef r)) s) in
  fst (observer (VScalar (SRef r)) s) = Ok (VScalar (SRef r)) /\
  (prop_truthy (t_shouldComponentUpdate (target_of o)) = false ->
   t_shouldComponentUpdate (target_of (object_at r s')) =
     PMixinShouldComponentUpdate /\
   console s' = console s ++ entry_warnings o) /\
  (forall (nextProps nextState : value) (w : World),
   exists b : bool,
     result (shouldComponentUpdate nextProps nextState) w = Returned b /\
     (b = true <->
      strictEqual (state_valueHolder (this w)) nextState = false \/
      shallowEqual (props_valueHolder (this w)) nextProps = false)) /\
  (prop_truthy (t_shouldComponentUpdate (target_of o)) = true ->
   is_mixin_sCU (t_shouldComponentUpdate (target_of o)) = false ->
   t_shouldComponentUpdate (target_of (object_at r s')) =
     t_shouldComponentUpdate (target_of o) /\
   console s' = console s ++ entry_warnings o ++ [ConsoleWarn sCU_warning]).
Proof.
  intros Hl Hc.
  destruct (class_based_not_function_component s o Hc) as [Hf Hn].
  cbn [observer]. rewrite (object_at_lookup r o s Hl).
  rewrite (observer_object_class_path r o s Hf Hn). cbn [fst snd].
  unfold object_at. cbn [objects console]. rewrite lookup_insert_eq.
  unfold upgraded. rewrite mixinLifecycleEvents_spec. cbn [fst snd].
  split; [reflexivity|]. split; [|split].
  - intros Ht. rewrite Ht. cbn [andb]. rewrite app_nil_r.
    split; [|reflexivity].
    destruct o as [fn inj pure tag ow [pt|] rc ec pty dp mo]; reflexivity.
  - intros nextProps nextState w.
    eexists. split; [apply shouldComponentUpdate_result|].
    rewrite orb_true_iff, !negb_true_iff. reflexivity.
  - intros Ht Hm. rewrite Ht, Hm. cbn [andb negb].
    split; [|reflexivity].
    destruct o as [fn inj pure tag ow [pt|] rc ec pty dp mo]; reflexivity.
Qed.

Lemma default_shouldComponentUpdate_or_warning_witness :
  let s := class_store false (PUserFn 5) in
  let s' := snd (observer (VScalar (SRef 1)) s) in
  class_based s (class_object false (PUserFn 5)) = true /\
  fst (observer (VScalar (SRef 1)) s) = Ok (VScalar (SRef 1)) /\
  t_shouldComponentUpdate (target_of (object_at 1 s')) = PUserFn 5 /\
  console s' = [ConsoleWarn sCU_warning].
Proof.
  pose proof (default_shouldComponentUpdate_or_warning 1
                (class_object false (PUserFn 5)) (class_store false (PUserFn 5))
                eq_refl eq_refl) as H.
  cbv zeta in H. destruct H as (H1 & _ & _ & H4).
  destruct (H4 eq_refl eq_refl) as [H5 H6].
  split; [reflexivity | split; [exact H1 | split; [exact H5 | exact H6]]].
Defined.

(** ** PureComponent *)

(** C7, as the code has it.  For a class-based component whose direct
    superclass is the host framework's PureComponent, [observer] prints a
    warning on the console and goes on: it returns the component, upgraded
    like any other class; no error is raised. *)
Theorem observer_on_PureComponent_warns (r : nat) (o : ComponentObject) (s : Store) :
  objects s !! r = Some o ->
  class_based s o = true ->
  superIsPureComponent o = true ->
  let s' := snd (observer (VScalar (SRef r)) s) in
  fst (observer (VScalar (SRef r)) s) = Ok (VScalar (SRef r)) /\
  In (ConsoleWarn pure_warning) (console s') /\
  isMobXReactObserver (object_at r s') = true /\
  t_render (target_of (object_at r s')) = PObserverRender (t_render (target_of o)).
Proof.
  intros Hl Hc Hp.
  destruct (class_based_not_function_component s o Hc) as [Hf Hn].
  cbn [observer]. rewrite (object_at_lookup r o s Hl).
  rewrite (observer_object_class_path r o s Hf Hn). cbn [fst snd].
  unfold object_at. cbn [objects console]. rewrite lookup_insert_eq.
  split; [reflexivity|]. split; [|split].
  - unfold entry_warnings. rewrite Hp. rewrite !in_app_iff. right. left. right. left. reflexivity.
  - unfold upgraded.
    destruct o as [fn inj pure tag ow [pt|] rc ec pty dp mo]; reflexivity.
  - unfold upgraded. rewrite mixinLifecycleEvents_spec. cbn [fst].
    destruct o as [fn inj pure tag ow [pt|] rc ec pty dp mo]; reflexivity.
Qed.

Lemma observer_on_PureComponent_warns_witness :
  let s := class_store true PAbsent in
  superIsPureComponent (class_object true PAbsent) = true /\
  fst (observer (VScalar (SRef 1)) s) = Ok (VScalar (SRef 1)) /\
  In (ConsoleWarn pure_warning) (console (snd (observer (VScalar (SRef 1)) s))).
Proof.
  pose proof (observer_on_PureComponent_warns 1 (class_object true PAbsent)
                (class_store true PAbsent) eq_refl eq_refl eq_refl) as H.
  cbv zeta in H. destruct H as (H1 & H2 & _).
  split; [reflexivity | split; [exact H1 | exact H2]].
Defined.

(** A class [class T extends PureComponent { render() {...} }] is not
    refused: [observer] returns it. *)
Lemma observer_on_PureComponent_does_not_raise :
  let s := class_store true PAbsent in
  objects s !! 1 = Some (class_object true PAbsent) /\
  superIsPureComponent (class_object true PAbsent) = true /\
  fst (observer (VScalar (SRef 1)) s) = Ok (VScalar (SRef 1)) /\
  (forall e, fst (observer (VScalar (SRef 1)) s) <> Raise e).
Proof.
  cbv zeta. split; [reflexivity | split; [reflexivity |]].
  assert (H : fst (observer (VScalar (SRef 1)) (class_store true PAbsent)) =
              Ok (VScalar (SRef 1))).
  { cbn [observer].
    rewrite (object_at_lookup 1 (class_object true PAbsent)
               (class_store true PAbsent) eq_refl).
    rewrite observer_object_class_path; reflexivity. }
  split; [exact H | intros e; rewrite H; discriminate].
Qed.

(** ** Invalid input *)

(** C8.  [observer(undefined)] and [observer(null)] raise at once (the
    first property read on the argument is a TypeError), and so does
    [observer] applied to a ref-forwarding wrapper whose [render] is not a
    function; in each case no object of the store changes and none is
    created, so no component comes back from the call. *)
Theorem observer_rejects_invalid_input (s : Store) :
  observer (VScalar SUndefined) s = (Raise TypeError, s) /\
  observer (VScalar SNull) s = (Raise TypeError, s) /\
  (forall (r : nat) (o : ComponentObject),
     objects s !! r = Some o ->
     is_forwardRef s o = true ->
     prop_isFunction (t_render (own o)) = false ->
     fst (observer (VScalar (SRef r)) s) = Raise (Error forwardRef_error) /\
     objects (snd (observer (VScalar (SRef r)) s)) = objects s /\
     next (snd (observer (VScalar (SRef r)) s)) = next s).
Proof.
  split; [reflexivity | split; [reflexivity |]].
  intros r o Hl Hf Hr.
  cbn [observer]. rewrite (object_at_lookup r o s Hl).
  unfold observer_object.
  assert (Hf' : forall s', ReactForwardRefSymbol s' = ReactForwardRefSymbol s ->
                  is_forwardRef s' o = true).
  { intros s' E. unfold is_forwardRef in *. rewrite E. exact Hf. }
  rewrite Hf' by (destruct (isMobxInjector o), (superIsPureComponent o); reflexivity).
  rewrite Hr. cbn [negb fst snd].
  destruct (isMobxInjector o), (superIsPureComponent o); repeat split; reflexivity.
Qed.

Lemma observer_rejects_invalid_input_witness :
  is_forwardRef forwardRef_store broken_forwardRef = true /\
  prop_isFunction (t_render (own broken_forwardRef)) = false /\
  fst (observer (VScalar (SRef 4)) forwardRef_store) = Raise (Error forwardRef_error) /\
  objects (snd (observer (VScalar (SRef 4)) forwardRef_store)) = objects forwardRef_store.
Proof.
  destruct (observer_rejects_invalid_input forwardRef_store) as (_ & _ & H).
  destruct (H 4 broken_forwardRef eq_refl eq_refl eq_refl) as (H1 & H2 & _).
  split; [reflexivity | split; [reflexivity | split; [exact H1 | exact H2]]].
Defined.

(** * Further properties of the run time *)

Ltac count_events :=
  cbn [log this]; rewrite ?count_snoc; cbn; try lia.

Ltac settle := first [assumption | reflexivity | discriminate | congruence | count_events].

(** ** Reading back what was written *)

(** [this.props = v; this.props] gives [v], whatever the Reaction callback
    run by the write does; the read emits nothing and creates the atom. *)
Theorem setter_getter_roundtrip (p : PropName) (v : value) (w : World) :
  let w1 := exec (setter p v) w in
  result (getter p) w1 = Returned v /\
  log (exec (getter p) w1) = log w1 /\
  atomHolder p (this (exec (getter p) w1)) = true /\
  valueHolder p (this (exec (getter p) w1)) = v.
Proof.
  by_cases w; repeat split; settle.
Qed.

(** ** Dependencies follow the last render *)

(** After a tracked render that returned, a change is delivered to the
    component exactly when the changed atom was read by that render: the
    "render pending" flag goes up for an atom that was read, and for any
    other atom the instance is left as it was and only the report of the
    change is logged. *)
Theorem change_delivered_iff_read
    (w : World) (run : RenderRun) (v : value) (a : Atom) :
  tracked_render w = true ->
  session_disposed w = false ->
  outcome run = Returned v ->
  let w1 := step (ARender run) w in
  let w2 := step (AChange a) w1 in
  isRenderingPending (this w1) = false /\
  isRenderingPending (this w2) = existsb (Atom_eqb a) (reads run) /\
  (existsb (Atom_eqb a) (reads run) = false ->
   w2 = with_log (log w1 ++ [ReportChanged a]) w1).
Proof.
  unfold tracked_render, session_disposed, has_session.
  by_cases w; intros; repeat split; intros; settle.
Qed.

Lemma change_delivered_iff_read_witness :
  let w1 := step (ARender reading_run) mounted_world in
  isRenderingPending (this (step (AChange (ExternalAtom 0)) w1)) = true /\
  isRenderingPending (this (step (AChange (ExternalAtom 5)) w1)) = false /\
  step (AChange (ExternalAtom 5)) w1 =
    with_log (log w1 ++ [ReportChanged (ExternalAtom 5)]) w1.
Proof.
  pose proof (change_delivered_iff_read mounted_world reading_run
                (VScalar (SNum 7)) (ExternalAtom 0) eq_refl eq_refl eq_refl) as H0.
  pose proof (change_delivered_iff_read mounted_world reading_run
                (VScalar (SNum 7)) (ExternalAtom 5) eq_refl eq_refl eq_refl) as H5.
  cbv zeta in H0, H5.
  destruct H0 as (_ & H0 & _). destruct H5 as (_ & H5 & H5').
  split; [exact H0 | split; [exact H5 | exact (H5' eq_refl)]].
Defined.

(** ** Re-entrancy marks *)

(** The two marks that guard re-entrancy are down whenever the code is not
    running: if [skipRender] and [isForcingUpdate] are unset before an
    action they are unset after it, also when [forceUpdate] throws. *)
Theorem marks_reset_after_every_action (acts : list Action) (w : World) :
  skipRender (this w) = false ->
  isForcingUpdate (this w) = false ->
  skipRender (this (run_actions acts w)) = false /\
  isForcingUpdate (this (run_actions acts w)) = false.
Proof.
  revert w. induction acts as [|a acts IH]; intros w Hs Hf; [split; assumption|].
  cbn [run_actions fold_left]. fold (run_actions acts (step a w)).
  assert (H : skipRender (this (step a w)) = false /\
              isForcingUpdate (this (step a w)) = false).
  { revert Hs Hf. clear. destruct a; by_cases w; intros; split; settle. }
  destruct H as [H1 H2]. apply IH; assumption.
Qed.

Lemma marks_reset_after_every_action_witness :
  let acts := [AChange (ExternalAtom 0); ASet Props (pizza 2 2);
               ARender throwing_run; AUnmount] in
  skipRender (this (run_actions acts failing_host_world)) = false /\
  isForcingUpdate (this (run_actions acts failing_host_world)) = false.
Proof.
  exact (marks_reset_after_every_action
           [AChange (ExternalAtom 0); ASet Props (pizza 2 2);
            ARender throwing_run; AUnmount] failing_host_world eq_refl eq_refl).
Defined.

(** ** A forced update that fails *)

(** Failures inside the Reaction callback, for a mounted component
    notified outside a write to its own props or state.  A
    [componentWillReact] that throws (line 165, outside the [try]) makes
    the callback throw that exception with the "render pending" flag
    already set, no [forceUpdate] requested and the Reaction kept.
    Otherwise, when the host's [forceUpdate] throws, the callback lets the
    exception through after having reset [isForcingUpdate] and disposed
    the Reaction, the log showing the request followed by the disposal;
    and when the host enqueues the update the callback returns and the
    Reaction is kept. *)
Theorem forceUpdate_failure_disposes (w : World) (r : Reaction) :
  reaction (this w) = Some r ->
  isRenderingPending (this w) = false ->
  skipRender (this w) = false ->
  unmounted_after_hook w = false ->
  let w' := exec onInvalidate w in
  isRenderingPending (this w') = true /\
  match componentWillReact (this w) with
  | Some (HookThrows e) =>
      result onInvalidate w = Thrown e /\
      reaction (this w') = Some r /\
      isForcingUpdate (this w') = isForcingUpdate (this w) /\
      log w' = log w ++ [WillReact]
  | _ =>
      isForcingUpdate (this w') = false /\
      match hostReply w with
      | HostThrows e =>
          result onInvalidate w = Thrown e /\
          session_disposed w' = true /\
          exists pre, log w' = log w ++ pre ++ [ForceUpdate; Dispose] /\
                      (pre = [] \/ pre = [WillReact])
      | Enqueued =>
          result onInvalidate w = Returned tt /\
          reaction (this w') = Some r /\
          exists pre, log w' = log w ++ pre ++ [ForceUpdate] /\
                      (pre = [] \/ pre = [WillReact])
      end
  end.
Proof.
  unfold unmounted_after_hook, session_disposed.
  destruct_world w. cbn [this reaction isRenderingPending skipRender hostReply log
                          componentWillReact isForcingUpdate].
  intros -> -> ->. unfold_runtime. run_cases; intros; try discriminate;
    repeat split; try reflexivity;
    first [ exists []; split; [rewrite <- ?app_assoc; reflexivity | left; reflexivity]
          | exists [WillReact]; split; [rewrite <- ?app_assoc; reflexivity | right; reflexivity] ].
Qed.

Lemma forceUpdate_failure_disposes_witness :
  result onInvalidate failing_host_world = Thrown boom /\
  session_disposed (exec onInvalidate failing_host_world) = true /\
  isForcingUpdate (this (exec onInvalidate failing_host_world)) = false.
Proof.
  pose proof (forceUpdate_failure_disposes failing_host_world
                (mkReaction false [CellAtom Props; ExternalAtom 0])
                eq_refl eq_refl eq_refl eq_refl) as H.
  cbv zeta in H. destruct H as (_ & H).
  change (componentWillReact (this failing_host_world)) with (Some HookReturns) in H.
  change (hostReply failing_host_world) with (HostThrows boom) in H.
  cbv iota in H. destruct H as (H1 & H3 & H4 & _).
  split; [exact H3 | split; [exact H4 | exact H1]].
Defined.

(** ** componentWillReact *)

Lemma willReact_first (a : Atom) (r : Reaction) (h : HookEffect) (w : World) :
  reaction (this w) = Some r ->
  isDisposed r = false ->
  observes a r = true ->
  isRenderingPending (this w) = false ->
  componentWillReact (this w) = Some h ->
  count is_WillReact (log (step (AChange a) w)) = count is_WillReact (log w) + 1 /\
  exists post, log (step (AChange a) w) =
                 log w ++ [ReportChanged a; WillReact] ++ post /\
               count is_WillReact post = 0.
Proof.
  destruct_world w. cbn [this reaction isRenderingPending componentWillReact].
  intros -> Hd Ho -> ->.
  destruct r as [d obs]. cbn in Hd, Ho. subst d. unfold observes in Ho. cbn in Ho.
  unfold_runtime. cbn. unfold observes. cbn. rewrite Ho.
  run_cases; (split; [count_events|]); rewrite <- ?app_assoc; cbn;
    eexists; (split; [reflexivity | reflexivity]).
Qed.

Lemma willReact_later (a : Action) (w : World) :
  isRenderingPending (this w) = true ->
  is_render a = false ->
  count is_WillReact (log (step a w)) = count is_WillReact (log w).
Proof.
  destruct a; by_cases w; intros; settle.
Qed.

Lemma willReact_later_run (l : list Action) (w : World) :
  isRenderingPending (this w) = true ->
  forallb (fun a => negb (is_render a)) l = true ->
  count is_WillReact (log (run_actions l w)) = count is_WillReact (log w).
Proof.
  revert w. induction l as [|a l IH]; intros w Hp Hl; [reflexivity|].
  cbn in Hl. apply andb_prop in Hl as [Ha Hl]. apply negb_true_iff in Ha.
  cbn [run_actions fold_left]. fold (run_actions l (step a w)).
  rewrite (IH (step a w) (pending_sticky a w Hp Ha) Hl).
  apply willReact_later; assumption.
Qed.

(** A component that defines [componentWillReact] has it called once for
    a batch of N >= 1 notifications delivered between two renders, by the
    first of them and before any [forceUpdate]; this holds as well when
    the batch starts inside a write to the component's own props or state,
    where no [forceUpdate] follows. *)
Theorem componentWillReact_once_per_batch
    (w : World) (r : Reaction) (h : HookEffect) (a : Atom) (l : list Atom) :
  reaction (this w) = Some r ->
  isDisposed r = false ->
  observes a r = true ->
  isRenderingPending (this w) = false ->
  componentWillReact (this w) = Some h ->
  count is_WillReact (log (run_actions (map AChange (a :: l)) w)) =
    count is_WillReact (log w) + 1 /\
  exists post, log (step (AChange a) w) =
                 log w ++ [ReportChanged a; WillReact] ++ post /\
               count is_WillReact post = 0.
Proof.
  intros Hr Hd Ho Hp Hh.
  destruct (willReact_first a r h w Hr Hd Ho Hp Hh) as [H1 H2].
  split; [|exact H2].
  cbn [map run_actions fold_left].
  fold (run_actions (map AChange l) (step (AChange a) w)).
  rewrite willReact_later_run; [exact H1 | | apply changes_not_render].
  apply (first_notification a r w Hr Hd Ho Hp).
Qed.

Lemma componentWillReact_once_per_batch_witness :
  count is_WillReact
    (log (run_actions (map AChange [CellAtom Props; ExternalAtom 0; ExternalAtom 0])
            hooked_world)) = 1.
Proof.
  exact (proj1 (componentWillReact_once_per_batch hooked_world
                  (mkReaction false [CellAtom Props; ExternalAtom 0]) HookReturns
                  (CellAtom Props) [ExternalAtom 0; ExternalAtom 0]
                  eq_refl eq_refl eq_refl eq_refl eq_refl)).
Defined.

(** ** Module-level switches *)

Lemma switches_step (a : Action) (w : World) :
  (isDevtoolsEnabled w = true -> isDevtoolsEnabled (step a w) = true) /\
  (keeps_devtools a = true -> isDevtoolsEnabled (step a w) = isDevtoolsEnabled w) /\
  (leaves_static a = true ->
   isUsingStaticRendering (step a w) = isUsingStaticRendering w) /\
  hostReply (step a w) = hostReply w /\
  componentWillReact (this (step a w)) = componentWillReact (this w).
Proof.
  destruct a; by_cases w; repeat split; intros; settle.
Qed.

(** The devtools switch is never turned off: once [trackComponents] has
    run, the flag stays set under every action; and nothing but
    [trackComponents] and [useStaticRendering] changes either switch. *)
Theorem switches_change_only_by_their_functions (acts : list Action) (w : World) :
  (isDevtoolsEnabled w = true -> isDevtoolsEnabled (run_actions acts w) = true) /\
  (forallb keeps_devtools acts = true ->
   isDevtoolsEnabled (run_actions acts w) = isDevtoolsEnabled w) /\
  (forallb leaves_static acts = true ->
   isUsingStaticRendering (run_actions acts w) = isUsingStaticRendering w).
Proof.
  revert w. induction acts as [|a acts IH]; intros w; [cbn; repeat split; intros; settle|].
  cbn [run_actions fold_left forallb]. fold (run_actions acts (step a w)).
  destruct (switches_step a w) as (H1 & H2 & H3 & _).
  destruct (IH (step a w)) as (I1 & I2 & I3).
  repeat split.
  - intros H. apply I1, H1, H.
  - intros H. apply andb_prop in H as [Ha Hl]. rewrite (I2 Hl). apply H2, Ha.
  - intros H. apply andb_prop in H as [Ha Hl]. rewrite (I3 Hl). apply H3, Ha.
Qed.

Lemma switches_change_only_by_their_functions_witness :
  let acts := [ARender reading_run; AUseStaticRendering true; AUnmount;
               ATrackComponents; AChange (ExternalAtom 0)] in
  isDevtoolsEnabled (run_actions acts static_world) = true.
Proof.
  exact (proj1 (switches_change_only_by_their_functions
                  [ARender reading_run; AUseStaticRendering true; AUnmount;
                   ATrackComponents; AChange (ExternalAtom 0)] static_world) eq_refl).
Defined.

(** ** Instrumentation is silent by default *)

Lemma silent_step (a : Action) (w : World) :
  isDevtoolsEnabled w = false ->
  keeps_devtools a = true ->
  count is_RenderReporterEmit (log (step a w)) =
    count is_RenderReporterEmit (log w).
Proof.
  destruct a; by_cases w; intros; settle.
Qed.

(** While the devtools are not enabled, no action makes [renderReporter]
    emit anything: neither a render event on mount or update nor a destroy
    event on unmount. *)
Theorem renderReporter_silent_without_devtools (acts : list Action) (w : World) :
  isDevtoolsEnabled w = false ->
  forallb keeps_devtools acts = true ->
  count is_RenderReporterEmit (log (run_actions acts w)) =
    count is_RenderReporterEmit (log w).
Proof.
  revert w. induction acts as [|a acts IH]; intros w Hd Hl; [reflexivity|].
  cbn in Hl. apply andb_prop in Hl as [Ha Hl].
  cbn [run_actions fold_left]. fold (run_actions acts (step a w)).
  rewrite IH; [apply silent_step; assumption | | exact Hl].
  destruct (switches_step a w) as (_ & H2 & _). rewrite (H2 Ha). exact Hd.
Qed.

Lemma renderReporter_silent_without_devtools_witness :
  let acts := [ADidUpdate; AChange (ExternalAtom 0); ARender reading_run;
               ADidUpdate; AUnmount] in
  count is_RenderReporterEmit (log (run_actions acts mounted_world)) = 0.
Proof.
  exact (renderReporter_silent_without_devtools
           [ADidUpdate; AChange (ExternalAtom 0); ARender reading_run;
            ADidUpdate; AUnmount] mounted_world eq_refl eq_refl).
Defined.

(** ** One Reaction per instance *)




(** ** A render that succeeds *)

(** When the component's render returns [v] and the Reaction, if there
    is one, is not disposed, the wrapper returns [v], with static
    rendering on or off; the component's render ran exactly once, nothing
    was disposed, nothing went to [errorsReporter] and no re-render was
    requested. *)
Theorem render_is_transparent_on_success (w : World) (run : RenderRun) (v : value) :
  outcome run = Returned v ->
  session_disposed w = false ->
  result (render run) w = Returned v /\
  count is_BaseRender (log (exec (render run) w)) = count is_BaseRender (log w) + 1 /\
  count is_Dispose (log (exec (render run) w)) = count is_Dispose (log w) /\
  count is_ErrorsReporterEmit (log (exec (render run) w)) =
    count is_ErrorsReporterEmit (log w) /\
  count is_ForceUpdate (log (exec (render run) w)) = count is_ForceUpdate (log w) /\
  props_valueHolder (this (exec (render run) w)) = props_valueHolder (this w) /\
  state_valueHolder (this (exec (render run) w)) = state_valueHolder (this w).
Proof.
  unfold session_disposed.
  by_cases w; intros; repeat split; settle.
Qed.

Lemma render_is_transparent_on_success_witness :
  result (render reading_run) mounted_world = Returned (VScalar (SNum 7)).
Proof.
  exact (proj1 (render_is_transparent_on_success mounted_world reading_run
                  (VScalar (SNum 7)) eq_refl eq_refl)).
Defined.

(** * Further properties of the transform *)

Lemma is_forwardRef_warn (o : ComponentObject) (s : Store) :
  is_forwardRef
    (if superIsPureComponent o
     then warn pure_warning (if isMobxInjector o then warn injector_warning s else s)
     else (if isMobxInjector o then warn injector_warning s else s)) o =
  is_forwardRef s o.
Proof. destruct (superIsPureComponent o), (isMobxInjector o); reflexivity. Qed.

Lemma observer_object_function_path (r : nat) (o : ComponentObject) (s : Store) :
  is_forwardRef s o = false ->
  is_function_component o = true ->
  observer_object r o s =
  match observerLite s r with
  | Some c =>
      (Ok (VScalar (SRef (next s))),
       mkStore (<[next s := finish_lite o c]> (objects s)) (S (next s))
         (ReactForwardRefSymbol s) (observerLite s)
         (console s ++ entry_warnings o))
  | None =>
      (Ok (VScalar (SRef r)),
       mkStore (<[r := finish_lite o o]> (objects s)) (next s)
         (ReactForwardRefSymbol s) (observerLite s)
         (console s ++ entry_warnings o))
  end.
Proof.
  intros Hf Hc. unfold observer_object, entry_warnings.
  rewrite is_forwardRef_warn, Hf, Hc.
  destruct s as [objs nx fwd lite cs].
  destruct (isMobxInjector o), (superIsPureComponent o);
    unfold alloc, warn, with_objects; cbn; destruct (lite r); cbn;
    rewrite <- ?app_assoc, ?app_nil_r; reflexivity.
Qed.

Lemma observer_object_forwardRef_path (r : nat) (o : ComponentObject) (s : Store) :
  is_forwardRef s o = true ->
  prop_isFunction (t_render (own o)) = true ->
  observer_object r o s =
  (Ok (VScalar (SRef (next s))),
   mkStore (<[next s := forwardRef_object s (t_render (own o))]> (objects s))
     (S (next s)) (ReactForwardRefSymbol s) (observerLite s)
     (console s ++ entry_warnings o)).
Proof.
  intros Hf Hr. unfold observer_object, entry_warnings.
  rewrite is_forwardRef_warn, Hf, Hr. cbn [negb].
  destruct s as [objs nx fwd lite cs].
  destruct (isMobxInjector o), (superIsPureComponent o);
    unfold alloc, warn, forwardRef_object; cbn; rewrite <- ?app_assoc, ?app_nil_r;
    reflexivity.
Qed.

Lemma observer_object_broken_forwardRef (r : nat) (o : ComponentObject) (s : Store) :
  is_forwardRef s o = true ->
  prop_isFunction (t_render (own o)) = false ->
  observer_object r o s =
  (Raise (Error forwardRef_error),
   mkStore (objects s) (next s) (ReactForwardRefSymbol s) (observerLite s)
     (console s ++ entry_warnings o)).
Proof.
  intros Hf Hr. unfold observer_object, entry_warnings.
  rewrite is_forwardRef_warn, Hf, Hr. cbn [negb].
  destruct s as [objs nx fwd lite cs].
  destruct (isMobxInjector o), (superIsPureComponent o);
    unfold warn; cbn; rewrite <- ?app_assoc, ?app_nil_r; reflexivity.
Qed.

(** ** Function components *)

(** For a stateless function component (a function that is no React class
    and whose prototype has no render), [observer] returns the component
    that mobx-react-lite's [observer] returned, marked
    [isMobXReactObserver] and with the function's [propTypes] and
    [defaultProps] when these are truthy.  When that component is a new
    one it sits at a new reference and the function itself is left
    exactly as it was, not even marked; when mobx-react-lite hands the
    function back (static rendering), the function itself is returned and
    marked in place, and nothing is allocated. *)
Theorem observer_wraps_function_component (r : nat) (o : ComponentObject) (s : Store) :
  objects s !! r = Some o ->
  objects s !! next s = None ->
  is_forwardRef s o = false ->
  is_function_component o = true ->
  exists s',
    match observerLite s r with
    | Some c =>
        observer (VScalar (SRef r)) s = (Ok (VScalar (SRef (next s))), s') /\
        next s <> r /\
        objects s' !! r = Some o /\
        (forall r', r' <> next s -> objects s' !! r' = objects s !! r') /\
        (exists c', objects s' !! next s = Some c' /\
           isMobXReactObserver c' = true /\
           propTypes c' =
             (if scalar_truthy (propTypes o) then propTypes o else propTypes c) /\
           defaultProps c' =
             (if scalar_truthy (defaultProps o) then defaultProps o
              else defaultProps c) /\
           own c' = own c /\ prototype c' = prototype c) /\
        next s' = S (next s)
    | None =>
        observer (VScalar (SRef r)) s = (Ok (VScalar (SRef r)), s') /\
        (forall r', r' <> r -> objects s' !! r' = objects s !! r') /\
        (exists o', objects s' !! r = Some o' /\
           isMobXReactObserver o' = true /\
           propTypes o' = propTypes o /\ defaultProps o' = defaultProps o /\
           own o' = own o /\ prototype o' = prototype o) /\
        next s' = next s
    end.
Proof.
  intros Hl Hfresh Hf Hc.
  assert (Hne : next s <> r) by (intros E; rewrite E in Hfresh; congruence).
  cbn [observer]. rewrite (object_at_lookup r o s Hl).
  rewrite (observer_object_function_path r o s Hf Hc).
  destruct (observerLite s r) as [c|]; eexists; (split; [reflexivity|]);
    cbn [objects next].
  - split; [exact Hne|].
    split; [rewrite lookup_insert_ne by exact Hne; exact Hl|].
    split; [intros r' Hr'; apply lookup_insert_ne; congruence|].
    split; [|reflexivity].
    exists (finish_lite o c). split; [apply lookup_insert_eq|].
    repeat split; reflexivity.
  - split; [intros r' Hr'; apply lookup_insert_ne; congruence|].
    split; [|reflexivity].
    exists (finish_lite o o). split; [apply lookup_insert_eq|].
    unfold finish_lite. cbn.
    destruct (scalar_truthy (propTypes o)), (scalar_truthy (defaultProps o));
      repeat split; reflexivity.
Qed.

Lemma observer_wraps_function_component_witness :
  fst (observer (VScalar (SRef 1)) function_store) = Ok (VScalar (SRef 2)) /\
  objects (snd (observer (VScalar (SRef 1)) function_store)) !! 1 =
    Some (function_object (SRef 7) SUndefined) /\
  fst (observer (VScalar (SRef 1)) static_function_store) = Ok (VScalar (SRef 1)).
Proof.
  destruct (observer_wraps_function_component 1 (function_object (SRef 7) SUndefined)
              function_store eq_refl eq_refl eq_refl eq_refl)
    as (s' & H & _ & H1 & _).
  destruct (observer_wraps_function_component 1 (function_object (SRef 7) SUndefined)
              static_function_store eq_refl eq_refl eq_refl eq_refl)
    as (s2 & H2 & _).
  rewrite H, H2. split; [reflexivity | split; [exact H1 | reflexivity]].
Defined.

(** ** Ref-forwarding wrappers *)

(** For a ref-forwarding wrapper whose [render] is a function, [observer]
    returns a new ref-forwarding wrapper around that render; the wrapper
    passed in is left as it was, and neither of the two is marked
    [isMobXReactObserver]. *)
Theorem observer_rewraps_forwardRef (r : nat) (o : ComponentObject) (s : Store) :
  objects s !! r = Some o ->
  objects s !! next s = None ->
  is_forwardRef s o = true ->
  prop_isFunction (t_render (own o)) = true ->
  exists s' o',
    observer (VScalar (SRef r)) s = (Ok (VScalar (SRef (next s))), s') /\
    next s <> r /\
    objects s' !! r = Some o /\
    objects s' !! next s = Some o' /\
    is_forwardRef s' o' = true /\
    t_render (own o') = PObserverForwardRef (t_render (own o)) /\
    isMobXReactObserver o' = false /\
    next s' = S (next s).
Proof.
  intros Hl Hfresh Hf Hr.
  assert (Hne : next s <> r) by (intros E; rewrite E in Hfresh; congruence).
  eexists. eexists. cbn [observer]. rewrite (object_at_lookup r o s Hl).
  rewrite (observer_object_forwardRef_path r o s Hf Hr).
  split; [reflexivity|]. cbn [objects next].
  split; [exact Hne|].
  split; [rewrite lookup_insert_ne by exact Hne; exact Hl|].
  split; [apply lookup_insert_eq|].
  split; [|repeat split; reflexivity].
  unfold is_forwardRef in *. cbn.
  destruct (ReactForwardRefSymbol s) as [f|]; [apply Nat.eqb_refl|].
  destruct (typeofTag o); discriminate.
Qed.

Lemma observer_rewraps_forwardRef_witness :
  fst (observer (VScalar (SRef 4)) good_forwardRef_store) = Ok (VScalar (SRef 5)) /\
  objects (snd (observer (VScalar (SRef 4)) good_forwardRef_store)) !! 4 =
    Some good_forwardRef.
Proof.
  destruct (observer_rewraps_forwardRef 4 good_forwardRef good_forwardRef_store
              eq_refl eq_refl eq_refl eq_refl)
    as (s' & o' & H & _ & H1 & _).
  rewrite H. split; [reflexivity | exact H1].
Defined.

(** ** When the transform fails *)

(** The error "render property of ForwardRef was not a function" (line
    289) is raised for an object exactly when the object is a
    ref-forwarding wrapper whose [render] is not a function: a wrapper
    with a function [render], a function component and a class never get
    it, whatever warnings they cause. *)
Theorem forwardRef_error_iff_broken_forwardRef
    (r : nat) (o : ComponentObject) (s : Store) :
  objects s !! r = Some o ->
  (fst (observer (VScalar (SRef r)) s) = Raise (Error forwardRef_error) <->
   is_forwardRef s o = true /\ prop_isFunction (t_render (own o)) = false).
Proof.
  intros Hl. cbn [observer]. rewrite (object_at_lookup r o s Hl).
  destruct (is_forwardRef s o) eqn:Hf.
  - destruct (prop_isFunction (t_render (own o))) eqn:Hr.
    + rewrite (observer_object_forwardRef_path r o s Hf Hr). cbn.
      split; [discriminate | intros [_ ?]; discriminate].
    + rewrite (observer_object_broken_forwardRef r o s Hf Hr). cbn.
      split; auto.
  - destruct (is_function_component o) eqn:Hc.
    + rewrite (observer_object_function_path r o s Hf Hc).
      destruct (observerLite s r); cbn;
        (split; [discriminate | intros [? _]; discriminate]).
    + rewrite (observer_object_class_path r o s Hf Hc). cbn.
      split; [discriminate | intros [? _]; discriminate].
Qed.

Lemma forwardRef_error_iff_broken_forwardRef_witness :
  fst (observer (VScalar (SRef 4)) forwardRef_store) = Raise (Error forwardRef_error) /\
  fst (observer (VScalar (SRef 4)) good_forwardRef_store) <>
    Raise (Error forwardRef_error).
Proof.
  split.
  - apply (forwardRef_error_iff_broken_forwardRef 4 broken_forwardRef
             forwardRef_store eq_refl). split; reflexivity.
  - intros H.
    apply (forwardRef_error_iff_broken_forwardRef 4 good_forwardRef
             good_forwardRef_store eq_refl) in H.
    destruct H as [_ H]. discriminate H.
Defined.

(** The explicit refusal of line 317 is what a falsy primitive other than
    [undefined] and [null] gets ([false], [0], the empty string); the
    store is untouched.  No object and neither [undefined] nor [null]
    receives that error. *)
Theorem observer_refuses_falsy_primitives (s : Store) :
  (forall p : scalar,
     scalar_truthy p = false -> p <> SUndefined -> p <> SNull ->
     observer (VScalar p) s = (Raise (Error invalid_error), s)) /\
  (forall r : nat,
     fst (observer (VScalar (SRef r)) s) <> Raise (Error invalid_error)) /\
  fst (observer (VScalar SUndefined) s) <> Raise (Error invalid_error) /\
  fst (observer (VScalar SNull) s) <> Raise (Error invalid_error).
Proof.
  split; [|split; [|split; discriminate]].
  - intros p Hp Hu Hn. destruct p; cbn in *; try congruence; rewrite Hp; reflexivity.
  - intros r. cbn [observer]. generalize (object_at r s). intros o.
    destruct (is_forwardRef s o) eqn:Hf.
    + destruct (prop_isFunction (t_render (own o))) eqn:Hr.
      * rewrite (observer_object_forwardRef_path r o s Hf Hr). discriminate.
      * rewrite (observer_object_broken_forwardRef r o s Hf Hr). cbn. discriminate.
    + destruct (is_function_component o) eqn:Hc.
      * rewrite (observer_object_function_path r o s Hf Hc).
        destruct (observerLite s r); discriminate.
      * rewrite (observer_object_class_path r o s Hf Hc). discriminate.
Qed.

Lemma observer_refuses_falsy_primitives_witness :
  observer (VScalar (SNum 0)) function_store =
    (Raise (Error invalid_error), function_store) /\
  observer (VScalar (SBool false)) function_store =
    (Raise (Error invalid_error), function_store) /\
  observer (VScalar (SStr EmptyString)) function_store =
    (Raise (Error invalid_error), function_store).
Proof.
  destruct (observer_refuses_falsy_primitives function_store) as (H & _).
  split; [|split]; apply H; (reflexivity || discriminate).
Defined.

(** ** What goes to the console *)

(** Whatever path [observer] takes for an object, the console receives
    the warning about [inject] when the object is an injector, then the
    warning about PureComponent when that is its direct superclass, then,
    on the class path only, the warning about a [shouldComponentUpdate] of
    the component's own; nothing else, and so nothing at all for a plain
    component. *)
Theorem observer_console_output (r : nat) (o : ComponentObject) (s : Store) :
  objects s !! r = Some o ->
  console (snd (observer (VScalar (SRef r)) s)) =
    console s
    ++ (if isMobxInjector o then [ConsoleWarn injector_warning] else [])
    ++ (if superIsPureComponent o then [ConsoleWarn pure_warning] else [])
    ++ (if class_path s o && custom_sCU o then [ConsoleWarn sCU_warning] else []).
Proof.
  intros Hl. cbn [observer]. rewrite (object_at_lookup r o s Hl).
  unfold class_path, custom_sCU.
  destruct (is_forwardRef s o) eqn:Hf; cbn [negb andb].
  - destruct (prop_isFunction (t_render (own o))) eqn:Hr.
    + rewrite (observer_object_forwardRef_path r o s Hf Hr). cbn.
      unfold entry_warnings. rewrite app_nil_r. reflexivity.
    + rewrite (observer_object_broken_forwardRef r o s Hf Hr). cbn.
      unfold entry_warnings. rewrite app_nil_r. reflexivity.
  - destruct (is_function_component o) eqn:Hc; cbn [negb andb].
    + rewrite (observer_object_function_path r o s Hf Hc).
      destruct (observerLite s r); cbn;
        unfold entry_warnings; rewrite app_nil_r; reflexivity.
    + rewrite (observer_object_class_path r o s Hf Hc). cbn.
      rewrite mixinLifecycleEvents_spec. cbn [snd].
      unfold entry_warnings. rewrite <- !app_assoc. reflexivity.
Qed.

Lemma observer_console_output_witness :
  console (snd (observer (VScalar (SRef 1)) (class_store false PAbsent))) = [] /\
  console (snd (observer (VScalar (SRef 1)) (class_store true (PUserFn 5)))) =
    [ConsoleWarn pure_warning; ConsoleWarn sCU_warning].
Proof.
  split.
  - exact (observer_console_output 1 (class_object false PAbsent)
             (class_store false PAbsent) eq_refl).
  - exact (observer_console_output 1 (class_object true (PUserFn 5))
             (class_store true (PUserFn 5)) eq_refl).
Defined.

(** ** Applying the transform twice *)

(** [observer(observer(C))] for a class-based component without a
    [shouldComponentUpdate] of its own: the second application returns
    the same reference again, finds the mixin's predicate in place and
    keeps it without the warning about custom predicates, and wraps the
    render wrapper once more. *)
Theorem observer_twice_on_class (r : nat) (o : ComponentObject) (s : Store) :
  objects s !! r = Some o ->
  class_based s o = true ->
  custom_sCU o = false ->
  let s1 := snd (observer (VScalar (SRef r)) s) in
  let s2 := snd (observer (VScalar (SRef r)) s1) in
  fst (observer (VScalar (SRef r)) s1) = Ok (VScalar (SRef r)) /\
  console s2 = console s1 ++ entry_warnings o /\
  next s2 = next s /\
  isMobXReactObserver (object_at r s2) = true /\
  t_shouldComponentUpdate (target_of (object_at r s2)) =
    t_shouldComponentUpdate (target_of (object_at r s1)) /\
  t_render (target_of (object_at r s2)) =
    PObserverRender (PObserverRender (t_render (target_of o))).
Proof.
  intros Hl Hc Hcustom.
  destruct (class_based_not_function_component s o Hc) as [Hf Hn].
  cbn [observer]. rewrite (object_at_lookup r o s Hl).
  rewrite (observer_object_class_path r o s Hf Hn). cbn [snd].
  set (s1 := mkStore _ _ _ _ _).
  assert (Hl1 : objects s1 !! r = Some (upgraded o)) by apply lookup_insert_eq.
  rewrite (object_at_lookup r (upgraded o) s1 Hl1).
  assert (Hf1 : is_forwardRef s1 (upgraded o) = false).
  { revert Hf. unfold is_forwardRef, upgraded, with_target. cbn.
    destruct (prototype o); cbn; auto. }
  assert (Hn1 : is_function_component (upgraded o) = false).
  { apply andb_prop in Hc as [_ Hc]. revert Hc.
    unfold is_function_component, upgraded, with_target.
    rewrite mixinLifecycleEvents_spec. cbn [fst].
    destruct o as [fn inj pure tag ow [pt|] rc ec pty dp mo]; cbn;
      destruct fn; cbn; congruence. }
  rewrite (observer_object_class_path r (upgraded o) s1 Hf1 Hn1). cbn [fst snd].
  unfold object_at. cbn [objects console next]. rewrite lookup_insert_eq.
  unfold s1. cbn [objects console next]. rewrite ?lookup_insert_eq.
  revert Hcustom. unfold custom_sCU, upgraded, entry_warnings, with_target.
  rewrite !mixinLifecycleEvents_spec. cbn [fst snd].
  destruct o as [fn inj pure tag ow [pt|] rc ec pty dp mo]; cbn;
    intros Hcustom;
    [destruct (prop_truthy (t_shouldComponentUpdate pt)) eqn:Ht
    |destruct (prop_truthy (t_shouldComponentUpdate ow)) eqn:Ht];
    cbn in *; rewrite ?Ht; cbn;
    try (apply negb_false_iff in Hcustom; rewrite Hcustom); cbn;
    rewrite ?app_nil_r; repeat split; reflexivity.
Qed.

Lemma observer_twice_on_class_witness :
  let s1 := snd (observer (VScalar (SRef 1)) (class_store false PAbsent)) in
  fst (observer (VScalar (SRef 1)) s1) = Ok (VScalar (SRef 1)) /\
  console (snd (observer (VScalar (SRef 1)) s1)) = [].
Proof.
  pose proof (observer_twice_on_class 1 (class_object false PAbsent)
                (class_store false PAbsent) eq_refl eq_refl eq_refl) as H.
  cbv zeta in H. destruct H as (H1 & H2 & _).
  split; [exact H1 | exact H2].
Defined.

(** * Properties of setHiddenProp *)

(** On an extensible object that has no own property [prop],
    [setHiddenProp] succeeds; the property then reads [v], is not
    enumerable (hidden from [Object.keys]) and is writable and
    configurable; no other property changes. *)
Theorem setHiddenProp_creates_hidden
    (target : Hidden.Obj) (prop : nat) (v : value) :
  Hidden.own_properties target !! prop = None ->
  Hidden.extensible target = true ->
  exists target',
    Hidden.setHiddenProp target prop v = Hidden.Done target' /\
    Hidden.get target' prop = v /\
    Hidden.enumerable target' prop = false /\
    Hidden.own_properties target' !! prop =
      Some (Hidden.mkDescriptor v false true true) /\
    (forall k, k <> prop ->
       Hidden.own_properties target' !! k = Hidden.own_properties target !! k) /\
    Hidden.extensible target' = true.
Proof.
  intros Hn He. eexists.
  unfold Hidden.setHiddenProp, Hidden.hasOwnProperty, Hidden.defineProperty.
  rewrite Hn, He. cbn [negb]. split; [reflexivity|].
  unfold Hidden.get, Hidden.enumerable. cbn. rewrite !lookup_insert_eq. cbn.
  repeat split; try reflexivity.
  intros k Hk. apply lookup_insert_ne. congruence.
Qed.

Lemma setHiddenProp_creates_hidden_witness :
  exists target',
    Hidden.setHiddenProp Hidden.empty 3 (VScalar (SBool false)) = Hidden.Done target' /\
    Hidden.get target' 3 = VScalar (SBool false) /\
    Hidden.enumerable target' 3 = false.
Proof.
  destruct (setHiddenProp_creates_hidden Hidden.empty 3 (VScalar (SBool false))
              (lookup_empty 3) eq_refl) as (t & H1 & H2 & H3 & _).
  exists t. split; [exact H1 | split; [exact H2 | exact H3]].
Defined.

(** On an object that already has the own property [prop],
    [setHiddenProp] only assigns: a writable property gets the value [v]
    and keeps its attributes, so a property that was enumerable stays
    visible; a property that is not writable makes the call raise a
    TypeError. *)
Theorem setHiddenProp_overwrites_in_place
    (target : Hidden.Obj) (prop : nat) (d : Hidden.Descriptor) (v : value) :
  Hidden.own_properties target !! prop = Some d ->
  if Hidden.d_writable d then
    exists target',
      Hidden.setHiddenProp target prop v = Hidden.Done target' /\
      Hidden.get target' prop = v /\
      Hidden.enumerable target' prop = Hidden.enumerable target prop /\
      (forall k, k <> prop ->
         Hidden.own_properties target' !! k = Hidden.own_properties target !! k) /\
      Hidden.extensible target' = Hidden.extensible target
  else Hidden.setHiddenProp target prop v = Hidden.Fail TypeError.
Proof.
  intros Hs.
  unfold Hidden.setHiddenProp, Hidden.hasOwnProperty, Hidden.assign.
  rewrite Hs. cbn [negb].
  destruct (Hidden.d_writable d); [|reflexivity].
  eexists. split; [reflexivity|].
  unfold Hidden.get, Hidden.enumerable. cbn. rewrite !lookup_insert_eq, Hs. cbn.
  repeat split; try reflexivity.
  intros k Hk. apply lookup_insert_ne. congruence.
Qed.

Lemma setHiddenProp_overwrites_in_place_witness :
  let visible := Hidden.mkObj {[ 3 := Hidden.mkDescriptor undefined true true true ]} true in
  exists target',
    Hidden.setHiddenProp visible 3 (VScalar (SNum 1)) = Hidden.Done target' /\
    Hidden.get target' 3 = VScalar (SNum 1) /\
    Hidden.enumerable target' 3 = true.
Proof.
  pose proof (setHiddenProp_overwrites_in_place
                (Hidden.mkObj {[ 3 := Hidden.mkDescriptor undefined true true true ]} true)
                3 (Hidden.mkDescriptor undefined true true true) (VScalar (SNum 1))
                (lookup_singleton_eq 3 _)) as H.
  cbn [Hidden.d_writable] in H. destruct H as (t & H1 & H2 & H3 & _).
  exists t. split; [exact H1 | split; [exact H2 | exact H3]].
Defined.

Lemma setHiddenProp_open (target : Hidden.Obj) (prop : nat) (v : value) :
  Hidden.open_object target ->
  exists target',
    Hidden.setHiddenProp target prop v = Hidden.Done target' /\
    Hidden.open_object target' /\
    Hidden.get target' prop = v /\
    (forall k, k <> prop -> Hidden.get target' k = Hidden.get target k).
Proof.
  intros [He Hw].
  destruct (Hidden.own_properties target !! prop) as [d|] eqn:Hs.
  - unfold Hidden.setHiddenProp, Hidden.hasOwnProperty, Hidden.assign.
    rewrite Hs, (Hw prop d Hs). cbn [negb].
    eexists. split; [reflexivity|]. split; [|split].
    + split; [exact He|]. cbn. intros k d' Hk.
      destruct (decide (prop = k)) as [->|Hne].
      * rewrite lookup_insert_eq in Hk. injection Hk as <-. reflexivity.
      * rewrite lookup_insert_ne in Hk by exact Hne. exact (Hw k d' Hk).
    + unfold Hidden.get. cbn. rewrite lookup_insert_eq. reflexivity.
    + intros k Hk. unfold Hidden.get. cbn.
      rewrite lookup_insert_ne by congruence. reflexivity.
  - unfold Hidden.setHiddenProp, Hidden.hasOwnProperty, Hidden.defineProperty.
    rewrite Hs, He. cbn [negb].
    eexists. split; [reflexivity|]. split; [|split].
    + split; [reflexivity|]. cbn. intros k d' Hk.
      destruct (decide (prop = k)) as [->|Hne].
      * rewrite lookup_insert_eq in Hk. injection Hk as <-. reflexivity.
      * rewrite lookup_insert_ne in Hk by exact Hne. exact (Hw k d' Hk).
    + unfold Hidden.get. cbn. rewrite lookup_insert_eq. reflexivity.
    + intros k Hk. unfold Hidden.get. cbn.
      rewrite lookup_insert_ne by congruence. reflexivity.
Qed.

(** On an extensible object whose own properties are all writable (the
    empty object is one), no sequence of [setHiddenProp] calls fails: each
    call leaves the object in that state, and in the end every key reads
    the last value given to it, the keys never written read as before. *)
Theorem setHiddenProps_never_fail
    (l : list (nat * value)) (target : Hidden.Obj) :
  Hidden.open_object target ->
  exists target',
    Hidden.setHiddenProps l target = Hidden.Done target' /\
    Hidden.open_object target' /\
    forall k,
      Hidden.get target' k =
        match Hidden.last_write k l with
        | Some v => v
        | None => Hidden.get target k
        end.
Proof.
  revert target. induction l as [|[prop v] l IH]; intros target Ho.
  - exists target. repeat split; try apply Ho.
  - destruct (setHiddenProp_open target prop v Ho) as (t1 & H1 & Ho1 & Hg & Hk).
    destruct (IH t1 Ho1) as (t2 & H2 & Ho2 & Hget).
    exists t2. cbn [Hidden.setHiddenProps Hidden.last_write]. rewrite H1.
    split; [exact H2|]. split; [exact Ho2|].
    intros k. rewrite Hget.
    destruct (Hidden.last_write k l); [reflexivity|].
    destruct (Nat.eqb_spec prop k) as [->|Hne]; [exact Hg | apply Hk; congruence].
Qed.

Lemma empty_open : Hidden.open_object Hidden.empty.
Proof. split; [reflexivity|]. intros prop d H. cbn in H. rewrite lookup_empty in H. discriminate. Qed.

Lemma setHiddenProps_never_fail_witness :
  exists target',
    Hidden.setHiddenProps
      [(0, VScalar (SBool false)); (1, VScalar (SBool false));
       (1, VScalar (SBool true)); (0, VScalar (SBool true));
       (1, VScalar (SBool false))] Hidden.empty = Hidden.Done target' /\
    Hidden.get target' 0 = VScalar (SBool true) /\
    Hidden.get target' 1 = VScalar (SBool false).
Proof.
  destruct (setHiddenProps_never_fail
              [(0, VScalar (SBool false)); (1, VScalar (SBool false));
               (1, VScalar (SBool true)); (0, VScalar (SBool true));
               (1, VScalar (SBool false))] Hidden.empty empty_open)
    as (t & H1 & _ & H2).
  exists t. split; [exact H1 | split; [exact (H2 0) | exact (H2 1)]].
Defined.

(** * Properties of the instrumentation *)

Lemma devtools_step_invariant (env : Devtools.Env) (op : Devtools.Op)
    (s : Devtools.State) :
  (Devtools.isDevtoolsEnabled s = true -> Devtools.hasWeakMap env = true) ->
  (Devtools.hasWeakMap env = true -> Devtools.componentByNodeRegistry s <> None) ->
  (Devtools.isDevtoolsEnabled s = false -> Devtools.renderReporter s = []) ->
  (Devtools.isDevtoolsEnabled (Devtools.step env op s) = true ->
     Devtools.hasWeakMap env = true) /\
  (Devtools.hasWeakMap env = true ->
     Devtools.componentByNodeRegistry (Devtools.step env op s) <> None) /\
  (Devtools.isDevtoolsEnabled (Devtools.step env op s) = false ->
     Devtools.renderReporter (Devtools.step env op s) = []) /\
  (Devtools.hasWeakMap env = false -> Devtools.step env op s = s).
Proof.
  intros H1 H2 H3.
  destruct s as [en reg rep], env as [wm base]. cbn in *.
  destruct op as [|now c|now c|st c]; cbn;
    unfold Devtools.trackComponents, Devtools.componentDidMount,
      Devtools.componentDidUpdate, Devtools.componentWillUnmount,
      Devtools.reportRendering; cbn.
  - destruct wm, en; cbn; repeat split; auto; try discriminate.
  - destruct en; cbn; [|repeat split; auto].
    specialize (H1 eq_refl). subst wm.
    destruct (Devtools.findDOMNode _ _), reg; cbn; repeat split; auto;
      try discriminate; try (intros _; apply H2; reflexivity).
  - destruct en; cbn; [|repeat split; auto].
    specialize (H1 eq_refl). subst wm.
    destruct (Devtools.findDOMNode _ _), reg; cbn; repeat split; auto;
      try discriminate; try (intros _; apply H2; reflexivity).
  - destruct st; cbn; [repeat split; auto|].
    destruct en; cbn; [|repeat split; auto].
    specialize (H1 eq_refl). subst wm.
    destruct (Devtools.findDOMNode _ _), reg; cbn; repeat split; auto;
      try discriminate; try (intros _; apply H2; reflexivity).
Qed.

(** The devtools can only be enabled where [WeakMap] exists: from the
    initial state of the module and under any sequence of calls, an
    enabled flag implies that the registry exists, and nothing is ever
    reported while the flag is off; where [WeakMap] is missing
    [trackComponents] raises and the module stays in its initial state. *)
Theorem devtools_need_WeakMap (env : Devtools.Env) (ops : list Devtools.Op) :
  let s := Devtools.run env ops (Devtools.initial env) in
  (Devtools.isDevtoolsEnabled s = true ->
     Devtools.hasWeakMap env = true /\ Devtools.componentByNodeRegistry s <> None) /\
  (Devtools.isDevtoolsEnabled s = false -> Devtools.renderReporter s = []) /\
  (Devtools.hasWeakMap env = false ->
     s = Devtools.initial env /\
     Devtools.trackComponents env s = Hidden.Fail (Error Devtools.unsupported)).
Proof.
  cbv zeta.
  assert (Hinv : forall s,
    (Devtools.isDevtoolsEnabled s = true -> Devtools.hasWeakMap env = true) ->
    (Devtools.hasWeakMap env = true -> Devtools.componentByNodeRegistry s <> None) ->
    (Devtools.isDevtoolsEnabled s = false -> Devtools.renderReporter s = []) ->
    (Devtools.isDevtoolsEnabled (Devtools.run env ops s) = true ->
       Devtools.hasWeakMap env = true) /\
    (Devtools.hasWeakMap env = true ->
       Devtools.componentByNodeRegistry (Devtools.run env ops s) <> None) /\
    (Devtools.isDevtoolsEnabled (Devtools.run env ops s) = false ->
       Devtools.renderReporter (Devtools.run env ops s) = []) /\
    (Devtools.hasWeakMap env = false -> Devtools.run env ops s = s)).
  { induction ops as [|op ops IH]; intros s H1 H2 H3; [cbn; auto|].
    destruct (devtools_step_invariant env op s H1 H2 H3) as (J1 & J2 & J3 & J4).
    destruct (IH (Devtools.step env op s) J1 J2 J3) as (K1 & K2 & K3 & K4).
    cbn [Devtools.run fold_left]. fold (Devtools.run env ops (Devtools.step env op s)).
    repeat split; auto. intros Hw. rewrite (K4 Hw). exact (J4 Hw). }
  destruct (Hinv (Devtools.initial env)) as (K1 & K2 & K3 & K4).
  - cbn. discriminate.
  - intros Hw. unfold Devtools.initial. rewrite Hw. discriminate.
  - reflexivity.
  - split; [intros He; split; [exact (K1 He) | exact (K2 (K1 He))]|].
    split; [exact K3|].
    intros Hw. split; [exact (K4 Hw)|].
    unfold Devtools.trackComponents. rewrite Hw. reflexivity.
Qed.

Lemma devtools_need_WeakMap_witness :
  let s := Devtools.run dom_env
             [Devtools.OpTrackComponents; Devtools.OpDidMount 20 timed_instance]
             (Devtools.initial dom_env) in
  Devtools.isDevtoolsEnabled s = true /\
  Devtools.componentByNodeRegistry s <> None.
Proof.
  pose proof (devtools_need_WeakMap dom_env
                [Devtools.OpTrackComponents; Devtools.OpDidMount 20 timed_instance]) as H.
  cbv zeta in H. destruct H as (H & _).
  split; [reflexivity | exact (proj2 (H eq_refl))].
Defined.

(** With the devtools enabled, a component mounted over DOM node [n] is
    registered under [n] and reported with that node and with its render
    time; when it unmounts over the same node (outside static rendering)
    the entry is removed and a destroy event with that node is reported. *)
Theorem registry_follows_mount_and_unmount
    (env : Devtools.Env) (now : Z) (c : Devtools.Instance) (n : nat)
    (m : gmap nat nat) (s : Devtools.State) :
  Devtools.isDevtoolsEnabled s = true ->
  Devtools.componentByNodeRegistry s = Some m ->
  Devtools.findDOMNode env (Devtools.ident c) = Some n ->
  let s1 := Devtools.componentDidMount env now c s in
  let s2 := Devtools.componentWillUnmount env false c s1 in
  Devtools.registered s1 n = Some (Devtools.ident c) /\
  Devtools.registered s2 n = None /\
  (forall n', n' <> n ->
     Devtools.registered s1 n' = Devtools.registered s n' /\
     Devtools.registered s2 n' = Devtools.registered s n') /\
  Devtools.renderReporter s2 =
    Devtools.renderReporter s ++
    [Devtools.RenderReport
       (Devtools.minus (Devtools.mobRenderEnd c) (Devtools.mobRenderStart c))
       (Devtools.minus (Some now) (Devtools.mobRenderStart c))
       (Devtools.ident c) (Some n);
     Devtools.DestroyReport (Devtools.ident c) (Some n)].
Proof.
  intros He Hm Hn. destruct s as [en reg rep]. cbn in He, Hm. subst en reg.
  unfold Devtools.componentDidMount, Devtools.componentWillUnmount,
    Devtools.reportRendering, Devtools.registered. cbn. rewrite Hn. cbn.
  rewrite lookup_insert_eq, lookup_delete_eq, <- app_assoc.
  repeat split; try reflexivity.
  - apply lookup_insert_ne. congruence.
  - rewrite lookup_delete_ne, lookup_insert_ne by congruence. reflexivity.
Qed.

Lemma registry_follows_mount_and_unmount_witness :
  let s := Devtools.mkState true (Some ∅) [] in
  let s1 := Devtools.componentDidMount dom_env 20 timed_instance s in
  Devtools.registered s1 101 = Some 1 /\
  Devtools.registered (Devtools.componentWillUnmount dom_env false timed_instance s1) 101 = None.
Proof.
  pose proof (registry_follows_mount_and_unmount dom_env 20 timed_instance 101 ∅
                (Devtools.mkState true (Some ∅) []) eq_refl eq_refl eq_refl) as H.
  cbv zeta in H. destruct H as (H1 & H2 & _).
  split; [exact H1 | exact H2].
Defined.

(** When [react-dom]'s [findDOMNode] throws (as under the test renderer),
    returns [null] or is missing, the render is still reported, with a
    null node, and the registry is left as it was; unmounting reports the
    destroy event in the same way. *)
Theorem report_without_dom_node
    (env : Devtools.Env) (now : Z) (c : Devtools.Instance) (s : Devtools.State) :
  Devtools.isDevtoolsEnabled s = true ->
  match Devtools.baseFindDOMNode env with
  | Some base => base (Devtools.ident c) = Devtools.DomThrows \/
                 base (Devtools.ident c) = Devtools.DomNull
  | None => True
  end ->
  Devtools.componentByNodeRegistry (Devtools.componentDidMount env now c s) =
    Devtools.componentByNodeRegistry s /\
  Devtools.renderReporter (Devtools.componentDidMount env now c s) =
    Devtools.renderReporter s ++
    [Devtools.RenderReport
       (Devtools.minus (Devtools.mobRenderEnd c) (Devtools.mobRenderStart c))
       (Devtools.minus (Some now) (Devtools.mobRenderStart c))
       (Devtools.ident c) None] /\
  Devtools.componentByNodeRegistry (Devtools.componentWillUnmount env false c s) =
    Devtools.componentByNodeRegistry s /\
  Devtools.renderReporter (Devtools.componentWillUnmount env false c s) =
    Devtools.renderReporter s ++ [Devtools.DestroyReport (Devtools.ident c) None].
Proof.
  intros He Hb.
  assert (Hn : Devtools.findDOMNode env (Devtools.ident c) = None).
  { unfold Devtools.findDOMNode. destruct (Devtools.baseFindDOMNode env) as [base|];
      [destruct Hb as [-> | ->]|]; reflexivity. }
  unfold Devtools.componentDidMount, Devtools.componentWillUnmount,
    Devtools.reportRendering. rewrite He, Hn. cbn. repeat split; reflexivity.
Qed.

Lemma report_without_dom_node_witness :
  let s := Devtools.mkState true (Some ∅) [] in
  Devtools.renderReporter (Devtools.componentDidMount test_renderer_env 20 timed_instance s) =
    [Devtools.RenderReport (Some 4%Z) (Some 10%Z) 1 None].
Proof.
  pose proof (report_without_dom_node test_renderer_env 20 timed_instance
                (Devtools.mkState true (Some ∅) []) eq_refl (or_introl eq_refl)) as H.
  exact (proj1 (proj2 H)).
Defined.
